(** * Drone_Nav: geodesic navigation, flight state machine, visual localisation

    A shallow embedding of [navigation.py], [drone.py], [vision_system.py]
    and [environment.py].  Python floats are read as exact rationals ([Q]),
    Python ints as [Z]; an exception is an explicit [Raise] result.  The
    geodesy of [geopy] and the trigonometry of [calculate_bearing], as well as
    the OpenCV feature extractor and matcher, are parameters of the
    development. *)

From Stdlib Require Import ZArith QArith Qround Qabs Qpower Lqa Lia List
  String Bool.
Import ListNotations.
Open Scope Q_scope.

(* ================================================================== *)
(** ** Python values and exceptions *)

Module Py.

Inductive exn : Set :=
  | TypeError | IndexError | ValueError | ZeroDivisionError | AttributeError.

Inductive result (A : Type) : Type :=
  | Ok (a : A)
  | Raise (e : exn).
Arguments Ok {A} a.
Arguments Raise {A} e.

Definition bind {A B : Type} (r : result A) (k : A -> result B) : result B :=
  match r with
  | Ok a => k a
  | Raise e => Raise e
  end.

(** An operand that may be [None]: arithmetic or ordering on it is a
    [TypeError]. *)
Definition operand {A : Type} (o : option A) : result A :=
  match o with
  | Some a => Ok a
  | None => Raise TypeError
  end.

(** An attribute that is only created by an assignment. *)
Definition attribute {A : Type} (o : option A) : result A :=
  match o with
  | Some a => Ok a
  | None => Raise AttributeError
  end.

Definition Qltb (a b : Q) : bool := negb (Qle_bool b a).

(** [max(a, b)] keeps [a] unless [b > a]; [min(a, b)] keeps [a] unless
    [b < a]. *)
Definition py_max (a b : Q) : Q := if Qltb a b then b else a.
Definition py_min (a b : Q) : Q := if Qltb b a then b else a.

(** [a / b] *)
Definition truediv (a b : Q) : result Q :=
  if Qeq_bool b 0 then Raise ZeroDivisionError else Ok (a / b).

(** [int(x)]: truncation toward zero. *)
Definition py_int (x : Q) : Z := Z.quot (Qnum x) (Z.pos (Qden x)).

(** [l[i]] with Python's negative indices. *)
Definition getitem {A : Type} (l : list A) (i : Z) : result A :=
  let n := Z.of_nat (List.length l) in
  let j := if (i <? 0)%Z then (i + n)%Z else i in
  if (j <? 0)%Z then Raise IndexError
  else match nth_error l (Z.to_nat j) with
       | Some a => Ok a
       | None => Raise IndexError
       end.

Definition len {A : Type} (l : list A) : Z := Z.of_nat (List.length l).

(** [a % b] on floats, for a positive [b]: the result has the sign of
    [b]. *)
Definition py_mod (a b : Q) : Q := a - b * inject_Z (Qfloor (a / b)).

End Py.

Import Py.

Notation "x <- c ;; k" := (bind c (fun x => k))
  (at level 61, c at next level, right associativity).

(* ================================================================== *)
(** ** External geodesy

    [geodesic(p, q).meters] and [geodesic(meters=m).destination(p, bearing)]
    from geopy, and the trigonometric part of [calculate_bearing]:
    [bearing_deg], the [atan2] of the spherical bearing formula in
    degrees. *)

Class Geodesy : Type := {
  geodesic_meters : Q * Q -> Q * Q -> Q;
  geodesic_destination : Q -> Q * Q -> Q -> Q * Q;
  bearing_deg : Q -> Q -> Q -> Q -> Q
}.

(** A flat test double: distances are taxicab, a leg always heads north. *)
Definition flat_geodesy : Geodesy := {|
  geodesic_meters := fun p q =>
    Qabs (fst p - fst q) + Qabs (snd p - snd q);
  geodesic_destination := fun m p _ => (fst p + m, snd p);
  bearing_deg := fun _ _ _ _ => 0
|}.

(* ================================================================== *)
(** ** navigation.py *)

Module Navigation.

Record Waypoint : Type := {
  wp_name : string;
  wp_lat : Q;
  wp_lon : Q
}.

Record NavigationSystem : Type := {
  waypoints : list Waypoint;
  current_waypoint_idx : Z;
  reached_destination : bool;
  waypoint_threshold : Q;
  distance_to_wp : option Q;
  bearing_to_wp : option Q
}.

(** [NavigationSystem.__init__] *)
Definition init (wps : list Waypoint) : NavigationSystem := {|
  waypoints := wps;
  current_waypoint_idx := 1;
  reached_destination := if (1 <? len wps)%Z then false else true;
  waypoint_threshold := 5;
  distance_to_wp := None;
  bearing_to_wp := None
|}.

Definition set_status (dist brg : option Q) (nav : NavigationSystem)
  : NavigationSystem := {|
  waypoints := waypoints nav;
  current_waypoint_idx := current_waypoint_idx nav;
  reached_destination := reached_destination nav;
  waypoint_threshold := waypoint_threshold nav;
  distance_to_wp := dist;
  bearing_to_wp := brg
|}.

Definition set_index (i : Z) (nav : NavigationSystem) : NavigationSystem := {|
  waypoints := waypoints nav;
  current_waypoint_idx := i;
  reached_destination := reached_destination nav;
  waypoint_threshold := waypoint_threshold nav;
  distance_to_wp := distance_to_wp nav;
  bearing_to_wp := bearing_to_wp nav
|}.

Definition set_reached (b : bool) (nav : NavigationSystem)
  : NavigationSystem := {|
  waypoints := waypoints nav;
  current_waypoint_idx := current_waypoint_idx nav;
  reached_destination := b;
  waypoint_threshold := waypoint_threshold nav;
  distance_to_wp := distance_to_wp nav;
  bearing_to_wp := bearing_to_wp nav
|}.

Section WithGeodesy.
Context {G : Geodesy}.

(** [calculate_bearing]: the bearing normalised to 0-360. *)
Definition calculate_bearing (lat1 lon1 lat2 lon2 : Q) : Q :=
  py_mod (bearing_deg lat1 lon1 lat2 lon2 + 360) 360.

(** [NavigationSystem.update] *)
Definition update (current_lat current_lon : Q) (nav : NavigationSystem)
  : result NavigationSystem :=
  if reached_destination nav || (len (waypoints nav) =? 0)%Z then
    Ok (set_status None None nav)
  else
    target_wp <- getitem (waypoints nav) (current_waypoint_idx nav) ;;
    let target_pos := (wp_lat target_wp, wp_lon target_wp) in
    let current_pos := (current_lat, current_lon) in
    Ok (set_status
          (Some (geodesic_meters current_pos target_pos))
          (Some (calculate_bearing current_lat current_lon
                   (fst target_pos) (snd target_pos)))
          nav).

End WithGeodesy.

(** [NavigationSystem.advance_waypoint]; the [else] of the inner test reads
    [self.waypoints[self.current_waypoint_idx]['name']] for its message. *)
Definition advance_waypoint (nav : NavigationSystem)
  : result NavigationSystem :=
  if negb (reached_destination nav) then
    let nav1 := set_index (current_waypoint_idx nav + 1)%Z nav in
    if (len (waypoints nav1) <=? current_waypoint_idx nav1)%Z then
      Ok (set_reached true nav1)
    else
      _ <- getitem (waypoints nav1) (current_waypoint_idx nav1) ;;
      Ok nav1
  else
    Ok (set_reached true nav).

(** [NavigationSystem.set_new_route] *)
Definition set_new_route (new_waypoints : list Waypoint)
  (nav : NavigationSystem) : NavigationSystem := {|
  waypoints := new_waypoints;
  current_waypoint_idx := 0;
  reached_destination := false;
  waypoint_threshold := waypoint_threshold nav;
  distance_to_wp := distance_to_wp nav;
  bearing_to_wp := bearing_to_wp nav
|}.

Definition get_current_waypoint_index (nav : NavigationSystem) : Z :=
  current_waypoint_idx nav.

(** [NavigationSystem.is_final_waypoint] *)
Definition is_final_waypoint (nav : NavigationSystem) : bool :=
  (current_waypoint_idx nav =? len (waypoints nav) - 1)%Z.

End Navigation.

(* ================================================================== *)
(** ** drone.py *)

Module Drone.

Import Navigation.

Inductive DroneState : Set :=
  | IDLE | TAKING_OFF | NAVIGATING | HOVERING | SEARCHING
  | MATCH_FOUND | RETURN_HOME | LANDING | LANDED.

Definition state_eqb (a b : DroneState) : bool :=
  match a, b with
  | IDLE, IDLE | TAKING_OFF, TAKING_OFF | NAVIGATING, NAVIGATING
  | HOVERING, HOVERING | SEARCHING, SEARCHING | MATCH_FOUND, MATCH_FOUND
  | RETURN_HOME, RETURN_HOME | LANDING, LANDING | LANDED, LANDED => true
  | _, _ => false
  end.

(** The attributes of a [Drone].  [altitude] is the property over [z];
    [search_radius] does not exist until the first search segment assigns
    it. *)
Record Drone : Type := {
  start_pos_lat_lon : Q * Q;
  lat : Q;
  lon : Q;
  z : Q;
  cruise_altitude : Q;
  velocity : Q;
  search_velocity : Q;
  ascent_speed : Q;
  descent_speed : Q;
  landing_altitude : Q;
  heading : Q;
  battery : Q;
  battery_drain_rate : Q;
  state : DroneState;
  hover_start_time : option Q;
  match_found_time : option Q;
  search_start_time : Q;
  max_search_radius : Q;
  search_radius : option Q;
  search_angle : Q;
  search_center_lat : Q;
  search_center_lon : Q;
  total_search_time : Q
}.

(** Attribute assignments. *)
Definition set_position (v_lat : Q) (v_lon : Q) (d : Drone) : Drone := {|
  start_pos_lat_lon := start_pos_lat_lon d;
  lat := v_lat;
  lon := v_lon;
  z := z d;
  cruise_altitude := cruise_altitude d;
  velocity := velocity d;
  search_velocity := search_velocity d;
  ascent_speed := ascent_speed d;
  descent_speed := descent_speed d;
  landing_altitude := landing_altitude d;
  heading := heading d;
  battery := battery d;
  battery_drain_rate := battery_drain_rate d;
  state := state d;
  hover_start_time := hover_start_time d;
  match_found_time := match_found_time d;
  search_start_time := search_start_time d;
  max_search_radius := max_search_radius d;
  search_radius := search_radius d;
  search_angle := search_angle d;
  search_center_lat := search_center_lat d;
  search_center_lon := search_center_lon d;
  total_search_time := total_search_time d
|}.

Definition set_altitude (v_z : Q) (d : Drone) : Drone := {|
  start_pos_lat_lon := start_pos_lat_lon d;
  lat := lat d;
  lon := lon d;
  z := v_z;
  cruise_altitude := cruise_altitude d;
  velocity := velocity d;
  search_velocity := search_velocity d;
  ascent_speed := ascent_speed d;
  descent_speed := descent_speed d;
  landing_altitude := landing_altitude d;
  heading := heading d;
  battery := battery d;
  battery_drain_rate := battery_drain_rate d;
  state := state d;
  hover_start_time := hover_start_time d;
  match_found_time := match_found_time d;
  search_start_time := search_start_time d;
  max_search_radius := max_search_radius d;
  search_radius := search_radius d;
  search_angle := search_angle d;
  search_center_lat := search_center_lat d;
  search_center_lon := search_center_lon d;
  total_search_time := total_search_time d
|}.

Definition set_velocity (v_velocity : Q) (d : Drone) : Drone := {|
  start_pos_lat_lon := start_pos_lat_lon d;
  lat := lat d;
  lon := lon d;
  z := z d;
  cruise_altitude := cruise_altitude d;
  velocity := v_velocity;
  search_velocity := search_velocity d;
  ascent_speed := ascent_speed d;
  descent_speed := descent_speed d;
  landing_altitude := landing_altitude d;
  heading := heading d;
  battery := battery d;
  battery_drain_rate := battery_drain_rate d;
  state := state d;
  hover_start_time := hover_start_time d;
  match_found_time := match_found_time d;
  search_start_time := search_start_time d;
  max_search_radius := max_search_radius d;
  search_radius := search_radius d;
  search_angle := search_angle d;
  search_center_lat := search_center_lat d;
  search_center_lon := search_center_lon d;
  total_search_time := total_search_time d
|}.

Definition set_bearing (v_heading : Q) (d : Drone) : Drone := {|
  start_pos_lat_lon := start_pos_lat_lon d;
  lat := lat d;
  lon := lon d;
  z := z d;
  cruise_altitude := cruise_altitude d;
  velocity := velocity d;
  search_velocity := search_velocity d;
  ascent_speed := ascent_speed d;
  descent_speed := descent_speed d;
  landing_altitude := landing_altitude d;
  heading := v_heading;
  battery := battery d;
  battery_drain_rate := battery_drain_rate d;
  state := state d;
  hover_start_time := hover_start_time d;
  match_found_time := match_found_time d;
  search_start_time := search_start_time d;
  max_search_radius := max_search_radius d;
  search_radius := search_radius d;
  search_angle := search_angle d;
  search_center_lat := search_center_lat d;
  search_center_lon := search_center_lon d;
  total_search_time := total_search_time d
|}.

Definition set_battery (v_battery : Q) (d : Drone) : Drone := {|
  start_pos_lat_lon := start_pos_lat_lon d;
  lat := lat d;
  lon := lon d;
  z := z d;
  cruise_altitude := cruise_altitude d;
  velocity := velocity d;
  search_velocity := search_velocity d;
  ascent_speed := ascent_speed d;
  descent_speed := descent_speed d;
  landing_altitude := landing_altitude d;
  heading := heading d;
  battery := v_battery;
  battery_drain_rate := battery_drain_rate d;
  state := state d;
  hover_start_time := hover_start_time d;
  match_found_time := match_found_time d;
  search_start_time := search_start_time d;
  max_search_radius := max_search_radius d;
  search_radius := search_radius d;
  search_angle := search_angle d;
  search_center_lat := search_center_lat d;
  search_center_lon := search_center_lon d;
  total_search_time := total_search_time d
|}.

Definition set_state (v_state : DroneState) (d : Drone) : Drone := {|
  start_pos_lat_lon := start_pos_lat_lon d;
  lat := lat d;
  lon := lon d;
  z := z d;
  cruise_altitude := cruise_altitude d;
  velocity := velocity d;
  search_velocity := search_velocity d;
  ascent_speed := ascent_speed d;
  descent_speed := descent_speed d;
  landing_altitude := landing_altitude d;
  heading := heading d;
  battery := battery d;
  battery_drain_rate := battery_drain_rate d;
  state := v_state;
  hover_start_time := hover_start_time d;
  match_found_time := match_found_time d;
  search_start_time := search_start_time d;
  max_search_radius := max_search_radius d;
  search_radius := search_radius d;
  search_angle := search_angle d;
  search_center_lat := search_center_lat d;
  search_center_lon := search_center_lon d;
  total_search_time := total_search_time d
|}.

Definition set_hover_start_time (v_hover_start_time : option Q) (d : Drone) : Drone := {|
  start_pos_lat_lon := start_pos_lat_lon d;
  lat := lat d;
  lon := lon d;
  z := z d;
  cruise_altitude := cruise_altitude d;
  velocity := velocity d;
  search_velocity := search_velocity d;
  ascent_speed := ascent_speed d;
  descent_speed := descent_speed d;
  landing_altitude := landing_altitude d;
  heading := heading d;
  battery := battery d;
  battery_drain_rate := battery_drain_rate d;
  state := state d;
  hover_start_time := v_hover_start_time;
  match_found_time := match_found_time d;
  search_start_time := search_start_time d;
  max_search_radius := max_search_radius d;
  search_radius := search_radius d;
  search_angle := search_angle d;
  search_center_lat := search_center_lat d;
  search_center_lon := search_center_lon d;
  total_search_time := total_search_time d
|}.

Definition set_match_found_time (v_match_found_time : option Q) (d : Drone) : Drone := {|
  start_pos_lat_lon := start_pos_lat_lon d;
  lat := lat d;
  lon := lon d;
  z := z d;
  cruise_altitude := cruise_altitude d;
  velocity := velocity d;
  search_velocity := search_velocity d;
  ascent_speed := ascent_speed d;
  descent_speed := descent_speed d;
  landing_altitude := landing_altitude d;
  heading := heading d;
  battery := battery d;
  battery_drain_rate := battery_drain_rate d;
  state := state d;
  hover_start_time := hover_start_time d;
  match_found_time := v_match_found_time;
  search_start_time := search_start_time d;
  max_search_radius := max_search_radius d;
  search_radius := search_radius d;
  search_angle := search_angle d;
  search_center_lat := search_center_lat d;
  search_center_lon := search_center_lon d;
  total_search_time := total_search_time d
|}.

Definition set_search_start_time (v_search_start_time : Q) (d : Drone) : Drone := {|
  start_pos_lat_lon := start_pos_lat_lon d;
  lat := lat d;
  lon := lon d;
  z := z d;
  cruise_altitude := cruise_altitude d;
  velocity := velocity d;
  search_velocity := search_velocity d;
  ascent_speed := ascent_speed d;
  descent_speed := descent_speed d;
  landing_altitude := landing_altitude d;
  heading := heading d;
  battery := battery d;
  battery_drain_rate := battery_drain_rate d;
  state := state d;
  hover_start_time := hover_start_time d;
  match_found_time := match_found_time d;
  search_start_time := v_search_start_time;
  max_search_radius := max_search_radius d;
  search_radius := search_radius d;
  search_angle := search_angle d;
  search_center_lat := search_center_lat d;
  search_center_lon := search_center_lon d;
  total_search_time := total_search_time d
|}.

Definition set_search_radius (v_search_radius : option Q) (d : Drone) : Drone := {|
  start_pos_lat_lon := start_pos_lat_lon d;
  lat := lat d;
  lon := lon d;
  z := z d;
  cruise_altitude := cruise_altitude d;
  velocity := velocity d;
  search_velocity := search_velocity d;
  ascent_speed := ascent_speed d;
  descent_speed := descent_speed d;
  landing_altitude := landing_altitude d;
  heading := heading d;
  battery := battery d;
  battery_drain_rate := battery_drain_rate d;
  state := state d;
  hover_start_time := hover_start_time d;
  match_found_time := match_found_time d;
  search_start_time := search_start_time d;
  max_search_radius := max_search_radius d;
  search_radius := v_search_radius;
  search_angle := search_angle d;
  search_center_lat := search_center_lat d;
  search_center_lon := search_center_lon d;
  total_search_time := total_search_time d
|}.

Definition set_search_angle (v_search_angle : Q) (d : Drone) : Drone := {|
  start_pos_lat_lon := start_pos_lat_lon d;
  lat := lat d;
  lon := lon d;
  z := z d;
  cruise_altitude := cruise_altitude d;
  velocity := velocity d;
  search_velocity := search_velocity d;
  ascent_speed := ascent_speed d;
  descent_speed := descent_speed d;
  landing_altitude := landing_altitude d;
  heading := heading d;
  battery := battery d;
  battery_drain_rate := battery_drain_rate d;
  state := state d;
  hover_start_time := hover_start_time d;
  match_found_time := match_found_time d;
  search_start_time := search_start_time d;
  max_search_radius := max_search_radius d;
  search_radius := search_radius d;
  search_angle := v_search_angle;
  search_center_lat := search_center_lat d;
  search_center_lon := search_center_lon d;
  total_search_time := total_search_time d
|}.

Definition set_search_center (v_search_center_lat : Q) (v_search_center_lon : Q) (d : Drone) : Drone := {|
  start_pos_lat_lon := start_pos_lat_lon d;
  lat := lat d;
  lon := lon d;
  z := z d;
  cruise_altitude := cruise_altitude d;
  velocity := velocity d;
  search_velocity := search_velocity d;
  ascent_speed := ascent_speed d;
  descent_speed := descent_speed d;
  landing_altitude := landing_altitude d;
  heading := heading d;
  battery := battery d;
  battery_drain_rate := battery_drain_rate d;
  state := state d;
  hover_start_time := hover_start_time d;
  match_found_time := match_found_time d;
  search_start_time := search_start_time d;
  max_search_radius := max_search_radius d;
  search_radius := search_radius d;
  search_angle := search_angle d;
  search_center_lat := v_search_center_lat;
  search_center_lon := v_search_center_lon;
  total_search_time := total_search_time d
|}.

Definition set_total_search_time (v_total_search_time : Q) (d : Drone) : Drone := {|
  start_pos_lat_lon := start_pos_lat_lon d;
  lat := lat d;
  lon := lon d;
  z := z d;
  cruise_altitude := cruise_altitude d;
  velocity := velocity d;
  search_velocity := search_velocity d;
  ascent_speed := ascent_speed d;
  descent_speed := descent_speed d;
  landing_altitude := landing_altitude d;
  heading := heading d;
  battery := battery d;
  battery_drain_rate := battery_drain_rate d;
  state := state d;
  hover_start_time := hover_start_time d;
  match_found_time := match_found_time d;
  search_start_time := search_start_time d;
  max_search_radius := max_search_radius d;
  search_radius := search_radius d;
  search_angle := search_angle d;
  search_center_lat := search_center_lat d;
  search_center_lon := search_center_lon d;
  total_search_time := v_total_search_time
|}.

(** [Drone.__init__] *)
Definition init (start_pos : Q * Q) (start_alt : Q) : Drone := {|
  start_pos_lat_lon := start_pos;
  lat := fst start_pos;
  lon := snd start_pos;
  z := 0;
  cruise_altitude := start_alt;
  velocity := 15;
  search_velocity := 5;
  ascent_speed := 5;
  descent_speed := 3 # 2;
  landing_altitude := 10;
  heading := 0;
  battery := 100;
  battery_drain_rate := 1 # 100;
  state := TAKING_OFF;
  hover_start_time := None;
  match_found_time := None;
  search_start_time := 0;
  max_search_radius := 20;
  search_radius := None;
  search_angle := 0;
  search_center_lat := 0;
  search_center_lon := 0;
  total_search_time := 0
|}.

(** [Drone.initiate_landing] *)
Definition initiate_landing (d : Drone) : Drone :=
  if negb (state_eqb (state d) LANDING) then set_state LANDING d else d.

(** [Drone.confirm_match], at clock reading [now]. *)
Definition confirm_match (now : Q) (d : Drone) : Drone :=
  set_total_search_time 0
    (set_search_start_time 0
       (set_match_found_time (Some now)
          (set_state MATCH_FOUND d))).

(** The orchestration loop of [simulation_main.py] assigns [SEARCHING]
    after a failed match of a hovering drone. *)
Definition begin_search (d : Drone) : Drone := set_state SEARCHING d.

Definition braking_distance : Q := 30.
Definition min_velocity : Q := 3.

(** The braking block of the [NAVIGATING] branch: [current_velocity]. *)
Definition current_velocity (cruise distance : Q) : result Q :=
  if Qltb distance braking_distance then
    ratio <- truediv distance braking_distance ;;
    let speed_ratio := py_max 0 ratio in
    Ok (min_velocity + (cruise - min_velocity) * speed_ratio)
  else
    Ok cruise.

(** Whether an [update] call ran to its end or left through the [return] of
    the search branch. *)
Inductive flow : Set := Fallthrough | Returned.

Section WithGeodesy.
Context {G : Geodesy}.

(** [geodesic(meters=m).destination(Point(lat, lon), heading)] assigned to
    [self.lat, self.lon]. *)
Definition fly (meters : Q) (d : Drone) : Drone :=
  let destination := geodesic_destination meters (lat d, lon d) (heading d) in
  set_position (fst destination) (snd destination) d.

Definition update_taking_off (dt : Q) (d : Drone) : Drone :=
  let d1 := set_altitude (z d + ascent_speed d * dt) d in
  if Qle_bool (cruise_altitude d1) (z d1) then
    set_state NAVIGATING (set_altitude (cruise_altitude d1) d1)
  else d1.

Definition update_navigating (dt : Q) (nav : NavigationSystem) (d : Drone)
  : result Drone :=
  if reached_destination nav then Ok d
  else
    let d1 := match bearing_to_wp nav with
              | Some b => set_bearing b d
              | None => d
              end in
    distance <- operand (distance_to_wp nav) ;;
    speed <- current_velocity (velocity d1) distance ;;
    let distance_this_frame := speed * dt in
    let distance_moved := py_min distance_this_frame distance in
    let d2 := if Qltb 0 distance_moved then fly distance_moved d1 else d1 in
    if Qltb distance (waypoint_threshold nav) then Ok (set_state HOVERING d2)
    else Ok d2.

Definition update_hovering (now : Q) (d : Drone) : result Drone :=
  _ <- operand (hover_start_time d) ;;
  Ok d.

Definition home_waypoint (d : Drone) : Waypoint := {|
  wp_name := "Home";
  wp_lat := fst (start_pos_lat_lon d);
  wp_lon := snd (start_pos_lat_lon d)
|}.

Definition update_searching (dt now : Q) (nav : NavigationSystem) (d : Drone)
  : result (flow * Drone * NavigationSystem) :=
  let d1 := set_total_search_time (total_search_time d + dt) d in
  let d2 :=
    if Qeq_bool (search_start_time d1) 0 then
      set_search_center (lat d1) (lon d1)
        (set_search_angle 0
           (set_search_radius (Some 5)
              (set_search_start_time now d1)))
    else d1 in
  let time_in_search := now - search_start_time d2 in
  radius <- attribute (search_radius d2) ;;
  let radius' :=
    if Qltb radius (max_search_radius d2) then radius + 1 * dt else radius in
  let d3 := set_search_radius (Some radius') d2 in
  let d4 := set_search_angle (search_angle d3 + 60 * dt) d3 in
  let destination :=
    geodesic_destination radius'
      (search_center_lat d4, search_center_lon d4) (search_angle d4) in
  let bearing_to_target :=
    calculate_bearing (lat d4) (lon d4) (fst destination) (snd destination) in
  let d5 := set_bearing bearing_to_target d4 in
  let d6 := fly (search_velocity d5 * dt) d5 in
  if Qltb 5 time_in_search then
    Ok (Returned,
        set_search_start_time 0
          (set_hover_start_time (Some now) (set_state HOVERING d6)),
        nav)
  else if Qltb 30 (total_search_time d6) then
    Ok (Fallthrough,
        set_total_search_time 0 (set_state RETURN_HOME d6),
        set_new_route [home_waypoint d6] nav)
  else
    Ok (Fallthrough, d6, nav).

Definition update_match_found (now : Q) (nav : NavigationSystem) (d : Drone)
  : result (Drone * NavigationSystem) :=
  since <- operand (match_found_time d) ;;
  if Qltb 1 (now - since) then
    if is_final_waypoint nav then Ok (initiate_landing d, nav)
    else
      nav' <- advance_waypoint nav ;;
      Ok (set_state NAVIGATING d, nav')
  else Ok (d, nav).

Definition update_return_home (dt : Q) (nav : NavigationSystem) (d : Drone)
  : Drone :=
  if reached_destination nav then initiate_landing d
  else
    let d1 := match bearing_to_wp nav with
              | Some b => set_bearing b d
              | None => d
              end in
    let distance_this_frame := velocity d1 * dt in
    let distance_moved :=
      match distance_to_wp nav with
      | Some distance => py_min distance_this_frame distance
      | None => distance_this_frame
      end in
    if Qltb 0 distance_moved then fly distance_moved d1 else d1.

Definition update_landing (dt : Q) (d : Drone) : Drone :=
  let d1 := set_altitude (z d - descent_speed d * dt) d in
  if Qle_bool (z d1) (1 # 10) then
    set_velocity 0 (set_state LANDED (set_altitude 0 d1))
  else d1.

(** The "State Logic" part of [Drone.update]. *)
Definition state_logic (dt now : Q) (d : Drone) (nav : NavigationSystem)
  : result (flow * Drone * NavigationSystem) :=
  match state d with
  | TAKING_OFF => Ok (Fallthrough, update_taking_off dt d, nav)
  | NAVIGATING =>
      d' <- update_navigating dt nav d ;; Ok (Fallthrough, d', nav)
  | HOVERING =>
      d' <- update_hovering now d ;; Ok (Fallthrough, d', nav)
  | SEARCHING => update_searching dt now nav d
  | MATCH_FOUND =>
      r <- update_match_found now nav d ;; Ok (Fallthrough, fst r, snd r)
  | RETURN_HOME => Ok (Fallthrough, update_return_home dt nav d, nav)
  | LANDING => Ok (Fallthrough, update_landing dt d, nav)
  | IDLE | LANDED => Ok (Fallthrough, d, nav)
  end.

(** The "Physics & Battery" part of [Drone.update]. *)
Definition physics_and_battery (dt : Q) (d : Drone) : Drone :=
  let d1 := set_altitude (py_max 0 (z d)) d in
  set_battery (py_max 0 (battery d1 - battery_drain_rate d1 * dt)) d1.

(** [Drone.update(dt, nav_system)] at clock reading [now]; the navigation
    system is a shared object, its new value is returned with the drone. *)
Definition update (dt now : Q) (d : Drone) (nav : NavigationSystem)
  : result (Drone * NavigationSystem) :=
  if state_eqb (state d) LANDED then Ok (d, nav)
  else
    r <- state_logic dt now d nav ;;
    match r with
    | (Fallthrough, d', nav') => Ok (physics_and_battery dt d', nav')
    | (Returned, d', nav') => Ok (d', nav')
    end.

End WithGeodesy.

End Drone.

(* ================================================================== *)
(** ** vision_system.py *)

Module Vision.

(** [cv2.DMatch] *)
Record DMatch : Type := {
  distance : Q;
  queryIdx : Z;
  trainIdx : Z
}.

Section WithOpenCV.

(** Images, keypoints and descriptors of OpenCV; [detectAndCompute] stands
    for the grey-scale conversion followed by [orb.detectAndCompute], whose
    descriptor array is [None] when nothing is found; [knnMatch] is
    [matcher.knnMatch(query, train, k=2)]. *)
Variables (Image KeyPoint Descriptor : Type).
Variable detectAndCompute : Image -> list KeyPoint * option (list Descriptor).
Variable knnMatch : list Descriptor -> list Descriptor -> list (list DMatch).

Record Features : Type := {
  kp : list KeyPoint;
  des : option (list Descriptor);
  img : Image
}.

Record VisionSystem : Type := {
  satellite_snapshots : list Image;
  waypoint_features : list Features;
  confidence_threshold : Q
}.

(** [VisionSystem._preprocess_snapshots] *)
Definition _preprocess_snapshots (snapshots : list Image) : list Features :=
  map (fun snapshot =>
         let r := detectAndCompute snapshot in
         {| kp := fst r; des := snd r; img := snapshot |})
      snapshots.

(** [VisionSystem.__init__] *)
Definition init (snapshots : list Image) : VisionSystem := {|
  satellite_snapshots := snapshots;
  waypoint_features := _preprocess_snapshots snapshots;
  confidence_threshold := 1 # 4
|}.

(** Lowe's ratio test on one [m, n] entry. *)
Definition ratio_test (m n : DMatch) : bool :=
  Qltb (distance m) ((7 # 10) * distance n).

(** The loop [for m, n in matches]: an entry that is not a pair fails to
    unpack. *)
Fixpoint good_matches (matches : list (list DMatch)) : result (list DMatch) :=
  match matches with
  | [] => Ok []
  | [m; n] :: rest =>
      good <- good_matches rest ;;
      Ok (if ratio_test m n then m :: good else good)
  | _ :: _ => Raise ValueError
  end.

(** [VisionSystem.match_waypoint]: the success flag and the confidence (the
    third component, the rendered comparison, is left out). *)
Definition match_waypoint (vs : VisionSystem) (camera_np : Image)
  (waypoint_index : Z) : result (bool * Q) :=
  if (len (waypoint_features vs) <=? waypoint_index)%Z then Ok (false, 0)
  else
    target_features <- getitem (waypoint_features vs) waypoint_index ;;
    match des target_features with
    | None => Ok (false, 0)
    | Some des_target =>
        match snd (detectAndCompute camera_np) with
        | None => Ok (false, 0)
        | Some des_camera =>
            good <- good_matches (knnMatch des_target des_camera) ;;
            let num_good_matches := len good in
            let total_target_kp := len (kp target_features) in
            let confidence :=
              if (0 <? total_target_kp)%Z
              then inject_Z num_good_matches / 100
              else 0 in
            let match_successful :=
              Qle_bool (confidence_threshold vs) confidence in
            Ok (match_successful, confidence)
        end
    end.

End WithOpenCV.

Arguments kp {Image KeyPoint Descriptor} _.
Arguments des {Image KeyPoint Descriptor} _.
Arguments img {Image KeyPoint Descriptor} _.
Arguments satellite_snapshots {Image KeyPoint Descriptor} _.
Arguments waypoint_features {Image KeyPoint Descriptor} _.
Arguments confidence_threshold {Image KeyPoint Descriptor} _.
Arguments match_waypoint {Image KeyPoint Descriptor} _ _ _ _ _.
Arguments init {Image KeyPoint Descriptor} _ _.

End Vision.

(* ================================================================== *)
(** ** environment.py *)

Module Environment.

(** The part of an [Environment] that [latlon_to_screen] reads: the bounding
    box [min_lon, min_lat, max_lon, max_lat] of [map_meta] and the pixel size
    of the map surface. *)
Record Environment : Type := {
  bbox : Q * Q * Q * Q;
  map_size : Z * Z
}.

(** [Environment.latlon_to_screen] *)
Definition latlon_to_screen (env : Environment) (lat lon : Q)
  : result (Z * Z) :=
  let '(min_lon, min_lat, max_lon, max_lat) := bbox env in
  let '(map_width, map_height) := map_size env in
  let lon_range := max_lon - min_lon in
  let lat_range := max_lat - min_lat in
  if Qeq_bool lon_range 0 || Qeq_bool lat_range 0 then
    Ok (map_width / 2, map_height / 2)%Z
  else
    fx <- truediv (lon - min_lon) lon_range ;;
    let screen_x := fx * inject_Z map_width in
    fy <- truediv (max_lat - lat) lat_range ;;
    let screen_y := fy * inject_Z map_height in
    Ok (py_int screen_x, py_int screen_y).

End Environment.

(* ================================================================== *)
(** ** Missions, statements under test and sample inputs *)

Module Mission.

Import Navigation Drone.

Section WithGeodesy.
Context {G : Geodesy}.

(** The drone states a mission can reach: construction, [update] calls that
    return, [confirm_match], [initiate_landing], and the loop's switch from
    [HOVERING] to [SEARCHING]. *)
Inductive reachable : Drone -> Prop :=
  | reach_init (start_pos : Q * Q) (start_alt : Q) :
      reachable (init start_pos start_alt)
  | reach_update (dt now : Q) (d d' : Drone) (nav nav' : NavigationSystem) :
      reachable d ->
      update dt now d nav = Ok (d', nav') ->
      reachable d'
  | reach_confirm_match (now : Q) (d : Drone) :
      reachable d -> reachable (confirm_match now d)
  | reach_initiate_landing (d : Drone) :
      reachable d -> reachable (initiate_landing d)
  | reach_begin_search (d : Drone) :
      reachable d -> state d = HOVERING -> reachable (begin_search d).

(** The clock reading at which the running search segment began; a tick
    that finds [search_start_time] at 0 begins one at [now]. *)
Definition segment_start (now : Q) (d : Drone) : Q :=
  if Qeq_bool (search_start_time d) 0 then now else search_start_time d.

(** A search tick reads [search_radius]: either the tick assigns it itself
    (it begins a segment) or an earlier tick has. *)
Definition radius_available (d : Drone) : Prop :=
  Qeq_bool (search_start_time d) 0 = false -> search_radius d <> None.

(** Radius and angle a search tick starts from. *)
Definition radius_before (d : Drone) : option Q :=
  if Qeq_bool (search_start_time d) 0 then Some 5 else search_radius d.

Definition angle_before (d : Drone) : Q :=
  if Qeq_bool (search_start_time d) 0 then 0 else search_angle d.

(** The braking policy in closed form. *)
Definition braking_policy (cruise distance : Q) : Q :=
  if Qltb distance 30 then 3 + (cruise - 3) * (distance / 30) else cruise.

(** Where a tick that moves [meters] along bearing [brg] ends. *)
Definition moved_to (meters brg : Q) (d : Drone) : Q * Q :=
  if Qltb 0 meters then geodesic_destination meters (lat d, lon d) brg
  else (lat d, lon d).

(** "In both NAVIGATING and RETURN_HOME the tick heads along the navigator's
    bearing and moves by the braking-policy speed times [dt], capped at the
    remaining distance." *)
Definition motion_with_braking (dt now : Q) (d : Drone)
  (nav : NavigationSystem) : Prop :=
  forall distance brg,
    state d = NAVIGATING \/ state d = RETURN_HOME ->
    reached_destination nav = false ->
    distance_to_wp nav = Some distance ->
    bearing_to_wp nav = Some brg ->
    exists d' nav',
      update dt now d nav = Ok (d', nav') /\
      heading d' == brg /\
      let meters := py_min (braking_policy (velocity d) distance * dt) distance in
      lat d' == fst (moved_to meters brg d) /\
      lon d' == snd (moved_to meters brg d).

(** "On a search tick the radius does not decrease, stays within the
    maximum, and the angle is reduced modulo 360." *)
Definition spiral_bounded (dt now : Q) (d : Drone) (nav : NavigationSystem)
  : Prop :=
  forall r d' nav',
    state d = SEARCHING ->
    0 <= dt ->
    search_radius d = Some r ->
    update dt now d nav = Ok (d', nav') ->
    exists r',
      search_radius d' = Some r' /\
      r <= r' /\ r' <= max_search_radius d' /\
      0 <= search_angle d' /\ search_angle d' < 360.

(** "Once the accumulated search time exceeds 30 s the tick redirects the
    route to home, enters RETURN_HOME and resets both the total search time
    and the segment timer." *)
Definition failsafe_resets_all (dt now : Q) (d : Drone)
  (nav : NavigationSystem) : Prop :=
  state d = SEARCHING ->
  30 < total_search_time d + dt ->
  exists d' nav',
    update dt now d nav = Ok (d', nav') /\
    state d' = RETURN_HOME /\
    waypoints nav' = [home_waypoint d] /\
    total_search_time d' == 0 /\
    search_start_time d' == 0.

(** One pass of the main loop of [simulation_main.py] is
    [nav_system.update(drone.lat, drone.lon)] followed by
    [drone.update(dt, nav_system)]; [ticks n] is [n] passes, the clock
    advancing by [dt] each time. *)
Fixpoint ticks (n : nat) (dt now : Q) (d : Drone) (nav : NavigationSystem)
  : result (Drone * NavigationSystem) :=
  match n with
  | O => Ok (d, nav)
  | S k =>
      nav1 <- Navigation.update (lat d) (lon d) nav ;;
      r <- update dt now d nav1 ;;
      ticks k dt (now + dt) (fst r) (snd r)
  end.

End WithGeodesy.

(** *** Sample inputs *)

Definition start : Waypoint := {| wp_name := "Start"; wp_lat := 0; wp_lon := 0 |}.
Definition target : Waypoint := {| wp_name := "Target"; wp_lat := 0; wp_lon := 100 |}.
Definition route : list Waypoint := [start; target].

(** A route whose last waypoint has been confirmed. *)
Definition nav_completed : NavigationSystem :=
  set_reached true (set_index 2 (Navigation.init route)).

(** A drone that took off from [start]. *)
Definition drone0 : Drone := Drone.init (0, 0) 10.

(** The navigator after the failsafe installed the home-only route. *)
Definition nav_home : NavigationSystem :=
  set_new_route [home_waypoint drone0] (Navigation.init route).

(** Under [flat_geodesy]: 100 m from the target, bearing 0. *)
Definition nav_en_route : NavigationSystem :=
  set_status (Some 100) (Some 0) (Navigation.init route).

(** Under [flat_geodesy]: 15 m from home, bearing 0. *)
Definition nav_homebound : NavigationSystem :=
  set_status (Some 15) (Some 0) nav_home.

Definition drone_navigating : Drone := set_state NAVIGATING drone0.

(** Back over the home position, returning. *)
Definition drone_over_home : Drone := set_state RETURN_HOME drone0.

(** Returning, 15 m short of home (under [flat_geodesy]). *)
Definition drone_returning : Drone :=
  set_position (-15) 0 (set_state RETURN_HOME drone0).

(** Four search ticks of 1.25 s into the segment that began at clock
    reading 100: radius 10, angle 300, 5 s of search accumulated. *)
Definition drone_searching : Drone :=
  set_total_search_time 5
    (set_search_angle 300
       (set_search_radius (Some 10)
          (set_search_start_time 100
             (set_state SEARCHING drone0)))).

(** Between two search segments: the previous one left radius 10. *)
Definition drone_next_segment : Drone :=
  set_search_start_time 0 drone_searching.

(** Searching with the radius at 19.99, just under the maximum. *)
Definition drone_wide_spiral : Drone :=
  set_search_radius (Some (1999 # 100)) drone_searching.

(** Searching with 29.99 s already accumulated. *)
Definition drone_search_exhausted : Drone :=
  set_total_search_time (2999 # 100) drone_searching.

End Mission.

Module Localisation.

Import Vision.

(** The ratio test in the words of the specification: an entry of the 2-NN
    result counts when it is a best and a second-best match and the best
    distance is less than 0.7 times the second-best. *)
Definition accepted (entry : list DMatch) : bool :=
  match entry with
  | [best; second] => Qltb (distance best) ((7 # 10) * distance second)
  | _ => false
  end.

Definition accepted_count (matches : list (list DMatch)) : Z :=
  len (filter accepted matches).

End Localisation.

Module Samples.

Import Vision.

(** A test double for OpenCV: an image is its list of descriptors, every
    query finds a best match at distance 10 and a second at distance 20. *)
Definition detect (image : list Z) : list Z * option (list Z) :=
  (image, match image with [] => None | _ => Some image end).

Definition knn (query train : list Z) : list (list DMatch) :=
  map (fun _ => [ {| distance := 10; queryIdx := 0; trainIdx := 0 |};
                  {| distance := 20; queryIdx := 0; trainIdx := 1 |} ])
      query.

Definition reference : list Z := List.repeat 7%Z 30.

Definition vision : VisionSystem (list Z) Z Z := Vision.init detect [reference].

Definition no_references : VisionSystem (list Z) Z Z := Vision.init detect [].

(** The default bounding box over a 1500 x 1000 map. *)
Definition env_default : Environment.Environment := {|
  Environment.bbox := (-1, 51, 0, 52);
  Environment.map_size := (1500, 1000)%Z
|}.

(** A bounding box collapsed to a point. *)
Definition env_point : Environment.Environment := {|
  Environment.bbox := (-1, 51, -1, 51);
  Environment.map_size := (1500, 1000)%Z
|}.

End Samples.

(* ================================================================== *)
(** ** geo_utils.py *)

Module GeoUtils.

(** The transcendental parts of the Web-Mercator tile formulas:
    [mercator_y lat] is [asinh(tan(radians(lat))) / pi] and
    [mercator_lat t] is [degrees(atan(sinh(pi * t)))]. *)
Class Mercator : Type := {
  mercator_y : Q -> Q;
  mercator_lat : Q -> Q
}.

(** [get_parent_tile] *)
Definition get_parent_tile (x y zoom : Z) : Z * Z * Z * (Z * Z) :=
  let parent_x := (x / 2)%Z in
  let parent_y := (y / 2)%Z in
  let parent_zoom := (zoom - 1)%Z in
  let quadrant_x := (x mod 2)%Z in
  let quadrant_y := (y mod 2)%Z in
  (parent_x, parent_y, parent_zoom, (quadrant_x, quadrant_y)).

Section WithMercator.
Context {M : Mercator}.

(** [deg2num] *)
Definition deg2num (lat_deg lon_deg : Q) (zoom : Z) : Z * Z :=
  let n := 2 ^ zoom in
  let xtile := py_int ((lon_deg + 180) / 360 * n) in
  let ytile := py_int ((1 - mercator_y lat_deg) / 2 * n) in
  (xtile, ytile).


End WithMercator.

(** A test double: latitude is mapped linearly, 0 at the equator. *)
Definition linear_mercator : Mercator := {|
  mercator_y := fun lat => lat / 90;
  mercator_lat := fun t => t * 90
|}.

End GeoUtils.

(* ================================================================== *)
(** ** environment.py, continued *)

Module MapView.

Import Environment.


(** The zoom arithmetic of [Environment.get_camera_view]: the scale factor
    for an altitude and the size of the area cropped from the map for a
    camera panel of [camera_size] pixels. *)
Definition scale_factor (altitude : Q) : result Q :=
  let cruise_altitude := 100 in
  let max_zoom_factor := 10 in
  if Qle_bool cruise_altitude altitude then Ok 1
  else
    zoom_progress <- truediv altitude cruise_altitude ;;
    Ok (max_zoom_factor - zoom_progress * (max_zoom_factor - 1)).

Definition crop_size (altitude : Q) (camera_size : Z * Z) : result (Q * Q) :=
  let '(cam_width, cam_height) := camera_size in
  scale <- scale_factor altitude ;;
  crop_width <- truediv (inject_Z cam_width) scale ;;
  crop_height <- truediv (inject_Z cam_height) scale ;;
  Ok (crop_width, crop_height).

(** The vignette of [get_camera_view]: drawn below 60 m with this alpha. *)
Definition vignette_alpha (altitude : Q) : result (option Z) :=
  if Qltb altitude 60 then
    ratio <- truediv altitude 60 ;;
    Ok (Some (py_int (150 * (1 - ratio))))
  else Ok None.

End MapView.

(* ================================================================== *)
(** ** drone.py, continued *)

Module Status.

Import Drone.

Inductive battery_status : Set := OK | LOW | CRITICAL.

(** [Drone.get_battery_status] *)
Definition get_battery_status (d : Drone) : Q * battery_status :=
  if Qltb 50 (battery d) then (battery d, OK)
  else if Qltb 20 (battery d) then (battery d, LOW)
  else (battery d, CRITICAL).

(** [Drone.get_position] *)
Definition get_position (d : Drone) : Q * Q := (lat d, lon d).

(** How bad a status is. *)
Definition severity (s : battery_status) : nat :=
  match s with OK => 0 | LOW => 1 | CRITICAL => 2 end.

Section WithGeodesy.
Context {G : Geodesy}.

(** [n] calls of [Drone.update] with the same [dt], the clock advancing by
    [dt] between calls. *)
Fixpoint updates (n : nat) (dt now : Q) (d : Drone)
  (nav : Navigation.NavigationSystem)
  : result (Drone * Navigation.NavigationSystem) :=
  match n with
  | O => Ok (d, nav)
  | S k =>
      r <- update dt now d nav ;;
      updates k dt (now + dt) (fst r) (snd r)
  end.

End WithGeodesy.

End Status.

(* ================================================================== *)
(** ** app.py: the route checks and map extent of [run_simulation] *)

Module App.

Import Navigation.

(** [min(...)] and [max(...)] over the values of a generator. *)
Definition min_of (values : list Q) : result Q :=
  match values with
  | [] => Raise ValueError
  | first :: rest => Ok (fold_left py_min rest first)
  end.

Definition max_of (values : list Q) : result Q :=
  match values with
  | [] => Raise ValueError
  | first :: rest => Ok (fold_left py_max rest first)
  end.

(** [not waypoints or len(waypoints) < 2]: the request is answered 400. *)
Definition rejected (waypoints : list Waypoint) : bool :=
  (len waypoints =? 0)%Z || (len waypoints <? 2)%Z.

Definition buffer : Q := 1 # 1000.
Definition width : Z := 1500.

(** The bounding box written to [map_meta.json]:
    [route_min_lon, route_min_lat, route_max_lon, route_max_lat]. *)
Definition route_bbox (waypoints : list Waypoint) : result (Q * Q * Q * Q) :=
  lo_lat <- min_of (map wp_lat waypoints) ;;
  let route_min_lat := lo_lat - buffer in
  hi_lat <- max_of (map wp_lat waypoints) ;;
  let route_max_lat := hi_lat + buffer in
  lo_lon <- min_of (map wp_lon waypoints) ;;
  let route_min_lon := lo_lon - buffer in
  hi_lon <- max_of (map wp_lon waypoints) ;;
  let route_max_lon := hi_lon + buffer in
  Ok (route_min_lon, route_min_lat, route_max_lon, route_max_lat).

(** [height = int(width * (max_lat - min_lat) / (max_lon - min_lon))] *)
Definition map_height (bbox : Q * Q * Q * Q) : result Z :=
  let '(route_min_lon, route_min_lat, route_max_lon, route_max_lat) := bbox in
  h <- truediv (inject_Z width * (route_max_lat - route_min_lat))
               (route_max_lon - route_min_lon) ;;
  Ok (py_int h).

End App.

(* ================================================================== *)
(** ** simulation_main.py: the state carried by the main loop *)

Module Loop.

Import Navigation Drone Vision.

Definition SEARCH_MATCH_INTERVAL : Q := 1 # 2.

Section WithCollaborators.
Context {G : Geodesy}.
Variables (Image KeyPoint Descriptor : Type).
Variable detectAndCompute : Image -> list KeyPoint * option (list Descriptor).
Variable knnMatch : list Descriptor -> list Descriptor -> list (list DMatch).

(** The objects and module-level variables the loop body reads and
    writes. *)
Record Sim : Type := {
  drone : Drone;
  nav_system : NavigationSystem;
  vision_system : VisionSystem Image KeyPoint Descriptor;
  match_attempted : bool;
  last_match_confidence : Q;
  last_search_match_time : Q
}.

(** What one pass observes from outside: [dt] from the frame clock, the
    readings of [time.time()] inside [drone.update] and [confirm_match],
    [pygame.time.get_ticks() / 1000], and the camera view. *)
Record Frame : Type := {
  frame_dt : Q;
  frame_now : Q;
  frame_confirm_now : Q;
  frame_current_time : Q;
  frame_view : Image
}.

(** [Sim] at program start, for the route [first :: others] (the script
    exits on an empty route). *)
Definition start (first : Waypoint) (others : list Waypoint)
  (snapshots : list Image) : Sim := {|
  drone := Drone.init (wp_lat first, wp_lon first) 10;
  nav_system := Navigation.init (first :: others);
  vision_system := Vision.init detectAndCompute snapshots;
  match_attempted := false;
  last_match_confidence := 0;
  last_search_match_time := 0
|}.

(** One pass of the [while running] body, without the drawing: navigator
    and drone updates, then the vision logic. *)
Definition pass (f : Frame) (s : Sim) : result Sim :=
  nav1 <- Navigation.update (lat (drone s)) (lon (drone s)) (nav_system s) ;;
  r <- Drone.update (frame_dt f) (frame_now f) (drone s) nav1 ;;
  let d1 := fst r in
  let nav2 := snd r in
  let current_time := frame_current_time f in
  let '(should_attempt_match, attempted, search_time) :=
    if state_eqb (state d1) HOVERING && negb (match_attempted s) then
      (true, true, last_search_match_time s)
    else if state_eqb (state d1) SEARCHING then
      if Qltb SEARCH_MATCH_INTERVAL (current_time - last_search_match_time s)
      then (true, match_attempted s, current_time)
      else (false, match_attempted s, last_search_match_time s)
    else (false, match_attempted s, last_search_match_time s) in
  r2 <- (if should_attempt_match then
           let current_waypoint_idx := get_current_waypoint_index nav2 in
           let snapshot_idx_to_match := (current_waypoint_idx - 1)%Z in
           m <- match_waypoint detectAndCompute knnMatch (vision_system s)
                  (frame_view f) snapshot_idx_to_match ;;
           let '(match_successful, confidence) := m in
           if match_successful then
             Ok (confirm_match (frame_confirm_now f) d1, confidence)
           else if state_eqb (state d1) HOVERING then
             Ok (begin_search d1, confidence)
           else Ok (d1, confidence)
         else Ok (d1, last_match_confidence s)) ;;
  let d2 := fst r2 in
  Ok {|
    drone := d2;
    nav_system := nav2;
    vision_system := vision_system s;
    match_attempted :=
      if negb (state_eqb (state d2) HOVERING) then false else attempted;
    last_match_confidence := snd r2;
    last_search_match_time := search_time
  |}.

(** The passes over a list of frames. *)
Fixpoint run (frames : list Frame) (s : Sim) : result Sim :=
  match frames with
  | [] => Ok s
  | f :: rest => s' <- pass f s ;; run rest s'
  end.

End WithCollaborators.

Arguments drone {Image KeyPoint Descriptor} _.
Arguments nav_system {Image KeyPoint Descriptor} _.
Arguments vision_system {Image KeyPoint Descriptor} _.
Arguments match_attempted {Image KeyPoint Descriptor} _.
Arguments last_match_confidence {Image KeyPoint Descriptor} _.
Arguments last_search_match_time {Image KeyPoint Descriptor} _.
Arguments frame_dt {Image} _.
Arguments frame_now {Image} _.
Arguments frame_confirm_now {Image} _.
Arguments frame_current_time {Image} _.
Arguments frame_view {Image} _.
Arguments start {Image KeyPoint Descriptor} _ _ _ _.
Arguments pass {G Image KeyPoint Descriptor} _ _ _ _.
Arguments run {G Image KeyPoint Descriptor} _ _ _ _.

End Loop.

(* ================================================================== *)
(** ** Well-formed navigators, sample frames *)

Module Routes.

Import Navigation.

(** The index is never negative, and while the route is neither completed
    nor empty it points into the route. *)
Definition well_formed (nav : NavigationSystem) : Prop :=
  (0 <= current_waypoint_idx nav)%Z /\
  (reached_destination nav = true \/
   waypoints nav = [] \/
   (current_waypoint_idx nav < len (waypoints nav))%Z).

(** A navigator in the middle of its route. *)
Definition active (nav : NavigationSystem) : Prop :=
  reached_destination nav = false /\
  (0 <= current_waypoint_idx nav < len (waypoints nav))%Z.

Section WithGeodesy.
Context {G : Geodesy}.

(** The navigators a program can obtain through the class's methods. *)
Inductive built : NavigationSystem -> Prop :=
  | built_init (wps : list Waypoint) : built (init wps)
  | built_update (lat lon : Q) (nav nav' : NavigationSystem) :
      built nav -> update lat lon nav = Ok nav' -> built nav'
  | built_advance (nav nav' : NavigationSystem) :
      built nav -> advance_waypoint nav = Ok nav' -> built nav'
  | built_set_new_route (wps : list Waypoint) (nav : NavigationSystem) :
      built nav -> built (set_new_route wps nav).

End WithGeodesy.

End Routes.

Module FlightSamples.

Import Navigation Drone Mission.

(** The safe envelope: altitude and battery are not negative, and a
    landed drone is on the ground at rest. *)
Definition envelope (d : Drone) : Prop :=
  0 <= z d /\ 0 <= battery d /\
  (state d = LANDED -> z d == 0 /\ velocity d == 0).

(** Descending, 3 m above the ground. *)
Definition drone_landing : Drone :=
  set_altitude 3 (set_state LANDING drone0).

(** Under [flat_geodesy]: 3 m from the target, inside the threshold. *)
Definition nav_arriving : NavigationSystem :=
  set_status (Some 3) (Some 0) (Navigation.init route).

(** A match was confirmed at clock reading 50. *)
Definition drone_confirmed : Drone := confirm_match 50 drone_searching.

(** A three-waypoint route, flown to its first target. *)
Definition via : Waypoint := {| wp_name := "Via"; wp_lat := 0; wp_lon := 50 |}.
Definition nav_first_leg : NavigationSystem :=
  Navigation.init [start; via; target].

End FlightSamples.

Module LoopInvariant.

Import Navigation Drone Vision Mission Routes Loop.

Section WithCollaborators.
Variables (Image KeyPoint Descriptor : Type).

(** The reference image compared against is that of the waypoint being
    approached: while the drone can still hover, search or confirm, the
    route index is at least 1. *)
Definition reference_index_ok (d : Drone) (nav : NavigationSystem) : Prop :=
  state d = RETURN_HOME \/ state d = LANDING \/ state d = LANDED \/
  (1 <= current_waypoint_idx nav)%Z.

(** What holds between two passes of the main loop. *)
Definition between_passes (s : Sim Image KeyPoint Descriptor) : Prop :=
  state (drone s) <> HOVERING /\
  state (drone s) <> IDLE /\
  match_attempted s = false /\
  active (nav_system s) /\
  reference_index_ok (drone s) (nav_system s) /\
  (state (drone s) = MATCH_FOUND -> match_found_time (drone s) <> None) /\
  radius_available (drone s).

(** The contract of [knnMatch] with [k=2] that the unpacking [for m, n in
    matches] relies on. *)
Definition pairs_only
  (knnMatch : list Descriptor -> list Descriptor -> list (list DMatch))
  : Prop :=
  forall query train,
    Forall (fun entry => List.length entry = 2%nat) (knnMatch query train).

End WithCollaborators.

Arguments between_passes {Image KeyPoint Descriptor} _.
Arguments pairs_only {Descriptor} _.

(** The sample mission: a target 40 m north of the start (the direction
    [flat_geodesy] flies in), one reference snapshot, frames of one second
    at clock readings 1, 2, ... *)
Definition north_target : Waypoint :=
  {| wp_name := "North"; wp_lat := 40; wp_lon := 0 |}.

Definition frame (now : Z) : Frame (list Z) := {|
  frame_dt := 1;
  frame_now := inject_Z now;
  frame_confirm_now := inject_Z now;
  frame_current_time := inject_Z now;
  frame_view := Samples.reference
|}.

Definition mission_frames : list (Frame (list Z)) :=
  map (fun k => frame (Z.of_nat k)) (seq 1 20).

Definition sim_north : Sim (list Z) Z Z :=
  Loop.start Samples.detect Mission.start [north_target]
    [Samples.reference].

(** The sample mission after five passes: about to arrive. *)
Definition sim_arriving : Sim (list Z) Z Z :=
  match run (G := flat_geodesy) Samples.detect Samples.knn
          (firstn 5 mission_frames) sim_north with
  | Ok s => s
  | Raise _ => sim_north
  end.

End LoopInvariant.

Module TileSamples.

Import Navigation GeoUtils.


(** A route waypoint inside the rectangle [bbox]. *)
Definition inside (bbox : Q * Q * Q * Q) (wp : Waypoint) : Prop :=
  let '(min_lon, min_lat, max_lon, max_lat) := bbox in
  min_lon < wp_lon wp /\ wp_lon wp < max_lon /\
  min_lat < wp_lat wp /\ wp_lat wp < max_lat.

(** A route of three waypoints near Greenwich. *)
Definition greenwich : list Waypoint :=
  [ {| wp_name := "A"; wp_lat := 103 # 2; wp_lon := -1 # 100 |};
    {| wp_name := "B"; wp_lat := 5151 # 100; wp_lon := 0 |};
    {| wp_name := "C"; wp_lat := 5149 # 100; wp_lon := 1 # 100 |} ].

(** A matcher that finds a single neighbour per descriptor. *)
Definition knn_single (query train : list Z) : list (list Vision.DMatch) :=
  map (fun _ => [ {| Vision.distance := 10; Vision.queryIdx := 0;
                     Vision.trainIdx := 0 |} ]) query.

End TileSamples.

(* ================================================================== *)
(** ** Facts about the Python primitives *)

Lemma Qltb_lt (a b : Q) : Qltb a b = true <-> a < b.
Proof.
  unfold Qltb. rewrite negb_true_iff.
  split; intro H.
  - apply Qnot_le_lt. intro L. apply Qle_bool_iff in L. congruence.
  - destruct (Qle_bool b a) eqn:E; [|reflexivity].
    apply Qle_bool_iff in E. lra.
Qed.

Lemma Qltb_ge (a b : Q) : Qltb a b = false <-> b <= a.
Proof.
  unfold Qltb. rewrite negb_false_iff. apply Qle_bool_iff.
Qed.

Lemma py_max_0_nonneg (x : Q) : 0 <= py_max 0 x.
Proof.
  unfold py_max. destruct (Qltb 0 x) eqn:E; [apply Qltb_lt in E|]; lra.
Qed.

Lemma py_max_0_eq (x : Q) : 0 <= x -> py_max 0 x == x.
Proof.
  intro H. unfold py_max. destruct (Qltb 0 x) eqn:E; [reflexivity|].
  apply Qltb_ge in E. lra.
Qed.

Lemma py_min_le_r (a b : Q) : py_min a b <= b.
Proof.
  unfold py_min. destruct (Qltb b a) eqn:E; [|apply Qltb_ge in E]; lra.
Qed.

Lemma truediv_nonzero (a b : Q) : ~ b == 0 -> truediv a b = Ok (a / b).
Proof.
  intro H. unfold truediv.
  destruct (Qeq_bool b 0) eqn:E; [|reflexivity].
  apply Qeq_bool_iff in E. contradiction.
Qed.

(** [int] truncates toward zero: it stays within one unit of its argument,
    on the side of zero. *)
Lemma py_int_truncates (x : Q) :
  Qabs (inject_Z (py_int x) - x) < 1 /\
  (0 <= x -> 0 <= inject_Z (py_int x) <= x) /\
  (x <= 0 -> x <= inject_Z (py_int x) <= 0).
Proof.
  destruct x as [n d]. unfold py_int. cbn [Qnum Qden].
  pose proof (Z.quot_rem' n (Z.pos d)) as E.
  assert (B : (Z.abs (Z.rem n (Z.pos d)) < Z.pos d)%Z).
  { assert (Z.abs (Z.rem n (Z.pos d)) < Z.abs (Z.pos d))%Z
      by (apply Z.rem_bound_abs; lia).
    lia. }
  assert (Sp : (0 <= n -> 0 <= Z.rem n (Z.pos d))%Z)
    by (intro; apply Z.rem_nonneg; lia).
  assert (Sn : (n <= 0 -> Z.rem n (Z.pos d) <= 0)%Z)
    by (intro; apply Z.rem_nonpos; lia).
  set (q := Z.quot n (Z.pos d)) in *. set (r := Z.rem n (Z.pos d)) in *.
  split; [|split].
  - apply Qabs_Qlt_condition. unfold Qlt, Qminus, Qplus, Qopp, inject_Z. cbn.
    split; nia.
  - unfold Qle, inject_Z. cbn. intro H. split; nia.
  - unfold Qle, inject_Z. cbn. intro H. split; nia.
Qed.

Lemma py_mod_range (a b : Q) : 0 < b -> 0 <= py_mod a b /\ py_mod a b < b.
Proof.
  intro Hb. unfold py_mod.
  pose proof (Qfloor_le (a / b)) as Lo.
  pose proof (Qlt_floor (a / b)) as Hi.
  set (k := inject_Z (Qfloor (a / b))) in *.
  assert (Hi' : a / b < k + 1).
  { unfold k. rewrite <- (inject_Z_plus _ 1). exact Hi. }
  assert (E : a == b * (a / b)) by (field; lra).
  split.
  - assert (b * k <= b * (a / b)) by (apply Qmult_le_l; assumption).
    lra.
  - assert (b * (a / b) < b * (k + 1)) by (apply Qmult_lt_l; assumption).
    lra.
Qed.

Lemma getitem_in_range {A : Type} (l : list A) (i : Z) :
  (0 <= i < len l)%Z -> exists a, getitem l i = Ok a /\ nth_error l (Z.to_nat i) = Some a.
Proof.
  intros [H0 H1]. unfold getitem, len in *.
  destruct (i <? 0)%Z eqn:E; [apply Z.ltb_lt in E; lia|].
  rewrite E.
  destruct (nth_error l (Z.to_nat i)) as [a|] eqn:N.
  - exists a. split; reflexivity.
  - apply nth_error_None in N. lia.
Qed.

(* ================================================================== *)
(** ** The navigator *)

Module NavigationFacts.

Import Navigation Mission.

Ltac nav_cases nav := destruct nav; cbn [reached_destination waypoints
  current_waypoint_idx waypoint_threshold distance_to_wp bearing_to_wp
  set_index set_reached set_status set_new_route] in *.

(** [update] never writes [reached_destination]. *)
Lemma update_keeps_reached {G : Geodesy} (lat lon : Q)
  (nav nav' : NavigationSystem) :
  update lat lon nav = Ok nav' ->
  reached_destination nav' = reached_destination nav /\
  waypoints nav' = waypoints nav /\
  current_waypoint_idx nav' = current_waypoint_idx nav.
Proof.
  unfold update.
  destruct (reached_destination nav || (len (waypoints nav) =? 0)%Z).
  - intros [= <-]. now nav_cases nav.
  - destruct (getitem (waypoints nav) (current_waypoint_idx nav)); cbn.
    + intros [= <-]. now nav_cases nav.
    + discriminate.
Qed.

(** A bearing lies in the half-open interval from 0 to 360. *)
Lemma calculate_bearing_range {G : Geodesy} (lat1 lon1 lat2 lon2 : Q) :
  0 <= calculate_bearing lat1 lon1 lat2 lon2 /\
  calculate_bearing lat1 lon1 lat2 lon2 < 360.
Proof. apply py_mod_range. reflexivity. Qed.

(** On a route that is not exhausted, [update] computes distance and
    bearing to the indexed waypoint and nothing else. *)
Lemma update_active {G : Geodesy} (lat lon : Q) (nav : NavigationSystem)
  (wp : Waypoint) :
  reached_destination nav = false ->
  getitem (waypoints nav) (current_waypoint_idx nav) = Ok wp ->
  update lat lon nav =
    Ok (set_status
          (Some (geodesic_meters (lat, lon) (wp_lat wp, wp_lon wp)))
          (Some (calculate_bearing lat lon (wp_lat wp) (wp_lon wp)))
          nav).
Proof.
  intros R W. unfold update. rewrite R, W.
  destruct (len (waypoints nav) =? 0)%Z eqn:E; [|reflexivity].
  apply Z.eqb_eq in E. unfold len in E.
  destruct (waypoints nav); [|discriminate].
  unfold getitem in W. cbn in W.
  destruct (current_waypoint_idx nav <? 0)%Z; cbn in W.
  - destruct (current_waypoint_idx nav + 0 <? 0)%Z; [discriminate|].
    destruct (Z.to_nat (current_waypoint_idx nav + 0)); discriminate.
  - destruct (current_waypoint_idx nav <? 0)%Z; [discriminate|].
    destruct (Z.to_nat (current_waypoint_idx nav)); discriminate.
Qed.

(** C8: once [reached_destination] is set, [advance_waypoint] changes
    nothing (the flag stays set and the index stays where it was); while it
    is unset and the incremented index passes the last valid index,
    [advance_waypoint] returns normally with the flag set. *)
Theorem advance_waypoint_completes (nav : NavigationSystem) :
  (reached_destination nav = true ->
   advance_waypoint nav = Ok nav) /\
  (reached_destination nav = false ->
   (len (waypoints nav) - 1 < current_waypoint_idx nav + 1)%Z ->
   exists nav',
     advance_waypoint nav = Ok nav' /\
     reached_destination nav' = true /\
     current_waypoint_idx nav' = (current_waypoint_idx nav + 1)%Z /\
     waypoints nav' = waypoints nav).
Proof.
  split.
  - intro R. unfold advance_waypoint. rewrite R. cbn.
    nav_cases nav. now subst.
  - intros R L. unfold advance_waypoint. rewrite R. cbn [negb].
    nav_cases nav.
    destruct (len waypoints0 <=? current_waypoint_idx0 + 1)%Z eqn:E.
    + eexists. split; [reflexivity|]. cbn. auto.
    + apply Z.leb_gt in E. lia.
Qed.

(** On a completed route, and on the last leg of [route]. *)
Lemma advance_waypoint_completes_witness :
  advance_waypoint nav_completed = Ok nav_completed /\
  exists nav',
    advance_waypoint (Navigation.init route) = Ok nav' /\
    reached_destination nav' = true /\
    current_waypoint_idx nav' = 2%Z /\
    waypoints nav' = route.
Proof.
  split.
  - apply (proj1 (advance_waypoint_completes nav_completed)). reflexivity.
  - apply (proj2 (advance_waypoint_completes (Navigation.init route))).
    + reflexivity.
    + cbn. lia.
Defined.

End NavigationFacts.

(* ================================================================== *)
(** ** The flight state machine *)

Module DroneFacts.

Import Navigation Drone Mission.

(** Reading an attribute after assignments. *)
Ltac fields :=
  cbn [start_pos_lat_lon lat lon z cruise_altitude velocity search_velocity
       ascent_speed descent_speed landing_altitude heading battery
       battery_drain_rate state hover_start_time match_found_time
       search_start_time max_search_radius search_radius search_angle
       search_center_lat search_center_lon total_search_time
       set_position set_altitude set_velocity set_bearing set_battery
       set_state set_hover_start_time set_match_found_time
       set_search_start_time set_search_radius set_search_angle
       set_search_center set_total_search_time
       fly physics_and_battery confirm_match begin_search home_waypoint
       wp_name wp_lat wp_lon
       fst snd bind operand attribute] in *.

Ltac atom c :=
  lazymatch c with
  | context [bind _ _] => fail
  | context [if _ then _ else _] => fail
  | context [match _ with Some _ => _ | None => _ end] => fail
  | _ => idtac
  end.

(** Case analysis on the innermost test of the goal. *)
Ltac branch :=
  match goal with
  | |- context [bind ?c _] => atom c; destruct c eqn:?; cbn [bind]
  | |- context [if ?c then _ else _] => atom c; destruct c eqn:?
  | |- context [match ?c with Some _ => _ | None => _ end] =>
      atom c; destruct c eqn:?
  end.

Ltac unfold_update :=
  unfold update, state_logic, update_taking_off, update_navigating,
    update_hovering, update_searching, update_match_found,
    update_return_home, update_landing, initiate_landing.

Section WithGeodesy.
Context {G : Geodesy}.

(** A landed drone ignores [update]. *)
Lemma update_landed (dt now : Q) (d : Drone) (nav : NavigationSystem) :
  state d = LANDED -> update dt now d nav = Ok (d, nav).
Proof. intro S. unfold update. now rewrite S. Qed.

(** No branch of [update] assigns [IDLE]. *)
Lemma update_not_idle (dt now : Q) (d d' : Drone)
  (nav nav' : NavigationSystem) :
  state d <> IDLE ->
  update dt now d nav = Ok (d', nav') ->
  state d' <> IDLE.
Proof.
  intros N. unfold_update.
  destruct (state d) eqn:S; cbn [state_eqb negb]; try contradiction; fields.
  all: repeat (branch; fields).
  all: try discriminate.
  all: intros H; inversion H; subst; fields; congruence.
Qed.

(** C10: a drone is constructed in [TAKING_OFF], and neither [update] nor
    [confirm_match] nor [initiate_landing] (nor the loop's switch to
    [SEARCHING]) ever assigns [IDLE]: no reachable drone is in [IDLE]. *)
Theorem idle_unreachable (d : Drone) :
  reachable d -> state d <> IDLE.
Proof.
  induction 1 as [pos alt | dt now d d' nav nav' _ IH U
                 | now d _ IH | d _ IH | d _ IH _].
  - discriminate.
  - exact (update_not_idle dt now d d' nav nav' IH U).
  - discriminate.
  - unfold initiate_landing.
    destruct (negb (state_eqb (state d) LANDING)); [discriminate | exact IH].
  - discriminate.
Qed.

(** Only a search tick assigns [search_start_time] a clock reading, and it
    assigns [search_radius] with it. *)
Lemma update_radius_available (dt now : Q) (d d' : Drone)
  (nav nav' : NavigationSystem) :
  radius_available d ->
  update dt now d nav = Ok (d', nav') ->
  radius_available d'.
Proof.
  unfold radius_available. intros A. unfold_update.
  destruct (state d) eqn:S; cbn [state_eqb negb]; fields.
  all: repeat (branch; fields).
  all: try discriminate.
  all: intros H; inversion H; subst; fields; auto; try discriminate.
  all: try (intros; discriminate).
Qed.

(** In every reachable state a search tick finds the radius it reads. *)
Lemma reachable_radius_available (d : Drone) :
  reachable d -> radius_available d.
Proof.
  induction 1 as [pos alt | dt now d d' nav nav' _ IH U
                 | now d _ IH | d _ IH | d _ IH _].
  - intro H. discriminate H.
  - exact (update_radius_available dt now d d' nav nav' IH U).
  - intro H. discriminate H.
  - unfold initiate_landing. destruct (negb _); [|exact IH].
    unfold radius_available in *. fields. exact IH.
  - unfold radius_available in *. fields. exact IH.
Qed.

Lemma radius_before_defined (d : Drone) :
  radius_available d -> exists r0, radius_before d = Some r0.
Proof.
  unfold radius_available, radius_before.
  destruct (Qeq_bool (search_start_time d) 0); [now exists 5|].
  intro A. destruct (search_radius d) as [r|]; [now exists r|].
  now destruct (A eq_refl).
Qed.

(** The fields of the battery line are left alone by the state logic. *)
Lemma battery_after_state_logic (dt now : Q) (d d' : Drone)
  (nav nav' : NavigationSystem) (fl : flow) :
  state_logic dt now d nav = Ok (fl, d', nav') ->
  battery d' = battery d /\ battery_drain_rate d' = battery_drain_rate d.
Proof.
  unfold_update.
  destruct (state d) eqn:S; cbn [state_eqb negb]; fields.
  all: repeat (branch; fields).
  all: try discriminate.
  all: intros H; inversion H; subst; fields; auto.
Qed.

(** Only the segment-complete exit of the search branch returns early. *)
Lemma returned_is_segment_complete (dt now : Q) (d d' : Drone)
  (nav nav' : NavigationSystem) :
  state_logic dt now d nav = Ok (Returned, d', nav') ->
  state d = SEARCHING /\ 5 < now - segment_start now d /\ state d' = HOVERING.
Proof.
  unfold_update. unfold segment_start.
  destruct (state d) eqn:S; cbn [state_eqb negb]; fields.
  all: repeat (branch; fields).
  all: try discriminate.
  all: intros H; inversion H; subst; fields.
  all: repeat split; try reflexivity.
  all: match goal with H : Qltb 5 _ = true |- _ => apply Qltb_lt in H; exact H end.
Qed.

(** A tick that does not complete a search segment drains the battery by
    [battery_drain_rate * dt], floored at 0. *)
Lemma battery_drained (dt now : Q) (d d' : Drone)
  (nav nav' : NavigationSystem) :
  state d <> LANDED ->
  (state d = SEARCHING -> now - segment_start now d <= 5) ->
  update dt now d nav = Ok (d', nav') ->
  battery d' = py_max 0 (battery d - battery_drain_rate d * dt).
Proof.
  intros NL NS. unfold update.
  destruct (state_eqb (state d) LANDED) eqn:E.
  { destruct (state d); try discriminate. contradiction. }
  destruct (state_logic dt now d nav) as [[[fl d1] nav1]|] eqn:L;
    cbn [bind]; [|discriminate].
  destruct fl.
  - intros [= <- <-]. apply battery_after_state_logic in L as [B R].
    fields. now rewrite B, R.
  - apply returned_is_segment_complete in L as (S & T & _).
    specialize (NS S). lra.
Qed.

(** Over any tick with [dt >= 0] the battery does not grow, and it does not
    become negative. *)
Lemma battery_monotone (dt now : Q) (d d' : Drone)
  (nav nav' : NavigationSystem) :
  0 <= dt -> 0 <= battery_drain_rate d -> 0 <= battery d ->
  update dt now d nav = Ok (d', nav') ->
  0 <= battery d' /\ battery d' <= battery d.
Proof.
  intros Hdt Hr Hb. unfold update.
  destruct (state_eqb (state d) LANDED).
  { intros [= <- <-]. lra. }
  destruct (state_logic dt now d nav) as [[[fl d1] nav1]|] eqn:L;
    cbn [bind]; [|discriminate].
  apply battery_after_state_logic in L as [B R].
  destruct fl; intros [= <- <-]; fields; rewrite ?B, ?R.
  - split; [apply py_max_0_nonneg|].
    unfold py_max. destruct (Qltb 0 _); nra.
  - lra.
Qed.

(** In [RETURN_HOME], with the route not marked as reached, a tick keeps
    the drone in [RETURN_HOME] and leaves the navigator alone. *)
Lemma return_home_stays (dt now : Q) (d : Drone) (nav : NavigationSystem) :
  state d = RETURN_HOME ->
  reached_destination nav = false ->
  exists d', update dt now d nav = Ok (d', nav) /\ state d' = RETURN_HOME.
Proof.
  intros S R. unfold_update. rewrite S, R. cbn [state_eqb bind].
  eexists. split; [reflexivity|].
  repeat (branch; fields); exact S.
Qed.

(** In [RETURN_HOME], once the route is marked as reached, the tick
    initiates the landing. *)
Lemma return_home_lands_when_reached (dt now : Q) (d : Drone)
  (nav : NavigationSystem) :
  state d = RETURN_HOME ->
  reached_destination nav = true ->
  exists d', update dt now d nav = Ok (d', nav) /\ state d' = LANDING.
Proof.
  intros S R. unfold_update. rewrite S, R. cbn [state_eqb negb bind].
  eexists. split; reflexivity.
Qed.

(** With the home-only route installed, the main loop never leaves
    [RETURN_HOME]: nothing sets [reached_destination]. *)
Lemma home_route_never_lands (n : nat) :
  forall (dt now : Q) (d : Drone) (nav : NavigationSystem) (home : Waypoint),
    state d = RETURN_HOME ->
    waypoints nav = [home] ->
    current_waypoint_idx nav = 0%Z ->
    reached_destination nav = false ->
    exists d' nav',
      ticks n dt now d nav = Ok (d', nav') /\
      state d' = RETURN_HOME /\
      reached_destination nav' = false.
Proof.
  induction n as [|n IH]; intros dt now d nav home S W I R.
  - exists d, nav. auto.
  - cbn [ticks].
    assert (U : getitem (waypoints nav) (current_waypoint_idx nav) = Ok home)
      by now rewrite W, I.
    rewrite (NavigationFacts.update_active _ _ _ _ R U). cbn [bind].
    set (nav1 := set_status _ _ nav).
    destruct (return_home_stays dt now d nav1 S) as (d1 & U1 & S1).
    { subst nav1. now destruct nav. }
    rewrite U1. cbn [bind fst snd].
    apply (IH dt (now + dt) d1 nav1 home S1); subst nav1; now destruct nav.
Qed.

End WithGeodesy.

(** C1: with the home-only route installed by [set_new_route] and the drone
    exactly over home (distance 0, inside the 5 m threshold), the
    navigator's [update] leaves [reached_destination] false, and the drone's
    next [update] keeps it in [RETURN_HOME] instead of landing. *)
Theorem home_route_not_reached_at_home :
  exists nav1 d1 nav2,
    Navigation.update (G := flat_geodesy) 0 0 nav_home = Ok nav1 /\
    distance_to_wp nav1 = Some 0 /\
    waypoint_threshold nav1 = 5 /\
    reached_destination nav1 = false /\
    update (G := flat_geodesy) (1 # 30) 100 drone_over_home nav1
      = Ok (d1, nav2) /\
    state d1 = RETURN_HOME /\
    reached_destination nav2 = false.
Proof.
  do 3 eexists.
  split; [vm_compute; reflexivity|].
  repeat split; vm_compute; reflexivity.
Qed.

(** C6: the tick that completes a search segment (more than 5 s after the
    segment began) returns before the battery line: the drone is not
    [LANDED], [battery_drain_rate * dt] is positive, and the battery is
    unchanged. *)
Theorem battery_not_drained_on_segment_exit :
  exists d' nav',
    update (G := flat_geodesy) (1 # 30) 106 drone_searching nav_en_route
      = Ok (d', nav') /\
    state drone_searching = SEARCHING /\
    state d' = HOVERING /\
    battery d' = battery drone_searching /\
    ~ battery d' ==
      py_max 0 (battery drone_searching
                - battery_drain_rate drone_searching * (1 # 30)).
Proof.
  do 2 eexists.
  split; [vm_compute; reflexivity|].
  repeat split. vm_compute. discriminate.
Qed.

(** A freshly constructed drone. *)
Lemma idle_unreachable_witness :
  state drone0 <> IDLE.
Proof.
  apply (idle_unreachable (G := flat_geodesy)). apply reach_init.
Defined.

Section Motion.
Context {G : Geodesy}.

(** The braking block computes the closed-form policy for a distance that
    is not negative. *)
Lemma current_velocity_policy (cruise distance : Q) :
  0 <= distance ->
  exists speed,
    current_velocity cruise distance = Ok speed /\
    (distance < 30 -> speed == 3 + (cruise - 3) * (distance / 30)) /\
    (30 <= distance -> speed = cruise).
Proof.
  intro H. unfold current_velocity, braking_distance, min_velocity.
  destruct (Qltb distance 30) eqn:E.
  - apply Qltb_lt in E.
    rewrite truediv_nonzero by (intro Z; discriminate Z).
    cbn [bind]. eexists. split; [reflexivity|]. split.
    + intros _. rewrite py_max_0_eq; [reflexivity|].
      apply Qle_shift_div_l; lra.
    + intro. lra.
  - apply Qltb_ge in E. exists cruise. split; [reflexivity|]. split.
    + intro. lra.
    + reflexivity.
Qed.

(** C2 (as the code has it): with the route not exhausted and distance
    [distance >= 0] and bearing [brg] supplied by the navigator, a tick
    heads the drone along [brg] in both states.  In [NAVIGATING] it moves by
    [speed * dt] capped at [distance], where [speed] follows the braking
    policy: [3 + (cruise - 3) * (distance / 30)] below 30 m, cruise velocity
    from 30 m on.  In [RETURN_HOME] it moves by cruise velocity times [dt]
    capped at [distance]; no braking is applied there. *)
Theorem navigating_brakes_return_home_cruises (dt now : Q) (d : Drone)
  (nav : NavigationSystem) (distance brg : Q) :
  reached_destination nav = false ->
  distance_to_wp nav = Some distance ->
  bearing_to_wp nav = Some brg ->
  0 <= distance ->
  (state d = NAVIGATING ->
   exists speed d',
     (distance < 30 -> speed == 3 + (velocity d - 3) * (distance / 30)) /\
     (30 <= distance -> speed = velocity d) /\
     update dt now d nav = Ok (d', nav) /\
     heading d' = brg /\
     py_min (speed * dt) distance <= distance /\
     (lat d', lon d') = moved_to (py_min (speed * dt) distance) brg d) /\
  (state d = RETURN_HOME ->
   exists d',
     update dt now d nav = Ok (d', nav) /\
     heading d' = brg /\
     py_min (velocity d * dt) distance <= distance /\
     (lat d', lon d') = moved_to (py_min (velocity d * dt) distance) brg d).
Proof.
  intros R D B P. split; intro S.
  - destruct (current_velocity_policy (velocity d) distance P)
      as (speed & V & Lo & Hi).
    exists speed.
    cut (exists d', update dt now d nav = Ok (d', nav) /\ heading d' = brg /\
           (lat d', lon d') = moved_to (py_min (speed * dt) distance) brg d).
    { intros (d' & U & Hd & Pos). exists d'.
      repeat split; try assumption. apply py_min_le_r. }
    unfold_update. rewrite S, R, D, B. cbn [state_eqb]. fields.
    rewrite V. cbn [bind]. unfold moved_to.
    destruct (Qltb distance (waypoint_threshold nav));
      cbn [bind]; eexists; (split; [reflexivity|]);
      destruct (Qltb 0 (py_min (speed * dt) distance)); fields;
      auto using surjective_pairing.
  - eexists. unfold_update. rewrite S, R, D, B. cbn [state_eqb negb bind].
    split; [reflexivity|]. unfold moved_to. fields.
    destruct (Qltb 0 (py_min (velocity d * dt) distance)); fields;
      auto using surjective_pairing, py_min_le_r.
Qed.

(** C3 (as the code has it): on a search tick with [dt >= 0], starting from
    the radius and angle the tick begins with (5 and 0 when it begins a
    segment, the stored ones otherwise), the radius does not decrease, grows
    by at most [dt], and stays as it is once it has reached
    [max_search_radius]; the angle advances by [60 * dt] and is not
    reduced. *)
Theorem spiral_tick (dt now : Q) (d : Drone) (nav : NavigationSystem)
  (r0 : Q) :
  state d = SEARCHING ->
  0 <= dt ->
  radius_before d = Some r0 ->
  exists d' nav' r',
    update dt now d nav = Ok (d', nav') /\
    search_radius d' = Some r' /\
    r0 <= r' /\ r' <= r0 + dt /\
    (max_search_radius d <= r0 -> r' = r0) /\
    search_angle d' == angle_before d + 60 * dt.
Proof.
  intros S Hdt Hr. unfold radius_before, angle_before in *.
  unfold_update. rewrite S. cbn [state_eqb]. fields.
  destruct (Qeq_bool (search_start_time d) 0) eqn:E; fields.
  - injection Hr as <-.
    destruct (Qltb 5 (max_search_radius d)) eqn:M;
      destruct (Qltb 5 (now - now)); fields;
      try destruct (Qltb 30 (total_search_time d + dt)); fields;
      do 3 eexists; (split; [reflexivity|]); fields;
      (split; [reflexivity|]);
      repeat split; try lra;
      try (intro L; apply Qltb_lt in M; lra).
  - rewrite Hr. fields.
    destruct (Qltb r0 (max_search_radius d)) eqn:M;
      destruct (Qltb 5 (now - search_start_time d)); fields;
      try destruct (Qltb 30 (total_search_time d + dt)); fields;
      do 3 eexists; (split; [reflexivity|]); fields;
      (split; [reflexivity|]);
      repeat split; try lra;
      try (intro L; apply Qltb_lt in M; lra).
Qed.

(** C4 (as the code has it): on a search tick that does not complete its
    segment (no more than 5 s since the segment began), once the accumulated
    search time exceeds 30 s the tick installs the home-only route (index 0,
    not reached), enters [RETURN_HOME] and resets the total search time to
    0. *)
Theorem search_failsafe (dt now : Q) (d : Drone) (nav : NavigationSystem) :
  state d = SEARCHING ->
  radius_available d ->
  now - segment_start now d <= 5 ->
  30 < total_search_time d + dt ->
  exists d' nav',
    update dt now d nav = Ok (d', nav') /\
    state d' = RETURN_HOME /\
    total_search_time d' = 0 /\
    waypoints nav' = [home_waypoint d] /\
    current_waypoint_idx nav' = 0%Z /\
    reached_destination nav' = false.
Proof.
  intros S A T X. unfold radius_available, segment_start in *.
  apply Qltb_ge in T. apply Qltb_lt in X.
  unfold_update. rewrite S. cbn [state_eqb]. fields.
  destruct (Qeq_bool (search_start_time d) 0) eqn:E; fields.
  - rewrite T, X. do 2 eexists. split; [reflexivity|]. fields. auto.
  - destruct (search_radius d) as [r|] eqn:Hr; [|now destruct (A eq_refl)].
    fields. rewrite T, X. do 2 eexists. split; [reflexivity|]. fields. auto.
Qed.

End Motion.

(** A leg of 100 m in [NAVIGATING], the last 15 m in [RETURN_HOME]. *)
Lemma navigating_brakes_return_home_cruises_witness :
  (exists speed d',
     (100 < 30 -> speed == 3 + (velocity drone_navigating - 3) * (100 / 30)) /\
     (30 <= 100 -> speed = velocity drone_navigating) /\
     update (G := flat_geodesy) 1 100 drone_navigating nav_en_route
       = Ok (d', nav_en_route) /\
     heading d' = 0 /\
     py_min (speed * 1) 100 <= 100 /\
     (lat d', lon d') =
       moved_to (G := flat_geodesy) (py_min (speed * 1) 100) 0
         drone_navigating) /\
  (exists d',
     update (G := flat_geodesy) 1 100 drone_returning nav_homebound
       = Ok (d', nav_homebound) /\
     heading d' = 0 /\
     py_min (velocity drone_returning * 1) 15 <= 15 /\
     (lat d', lon d') =
       moved_to (G := flat_geodesy)
         (py_min (velocity drone_returning * 1) 15) 0 drone_returning).
Proof.
  split.
  - apply (proj1 (navigating_brakes_return_home_cruises (G := flat_geodesy)
                    1 100 drone_navigating nav_en_route 100 0
                    eq_refl eq_refl eq_refl ltac:(lra))).
    reflexivity.
  - apply (proj2 (navigating_brakes_return_home_cruises (G := flat_geodesy)
                    1 100 drone_returning nav_homebound 15 0
                    eq_refl eq_refl eq_refl ltac:(lra))).
    reflexivity.
Defined.

(** C2 as stated fails in [RETURN_HOME]: 15 m from home at cruise velocity
    15 and [dt = 1], the braking policy would give speed 9 and a 9 m move;
    the tick moves the full 15 m. *)
Lemma return_home_does_not_brake :
  ~ motion_with_braking (G := flat_geodesy) 1 100 drone_returning
      nav_homebound.
Proof.
  intro H.
  destruct (H 15 0 (or_intror eq_refl) eq_refl eq_refl eq_refl)
    as (d' & nav' & U & _ & Hlat & _).
  vm_compute in U. injection U as <- <-.
  vm_compute in Hlat. discriminate Hlat.
Qed.

(** The fifth 1.25 s tick of a search segment. *)
Lemma spiral_tick_witness :
  exists d' nav' r',
    update (G := flat_geodesy) (5 # 4) 105 drone_searching nav_en_route
      = Ok (d', nav') /\
    search_radius d' = Some r' /\
    10 <= r' /\ r' <= 10 + (5 # 4) /\
    (max_search_radius drone_searching <= 10 -> r' = 10) /\
    search_angle d' == angle_before drone_searching + 60 * (5 # 4).
Proof.
  apply (spiral_tick (G := flat_geodesy) (5 # 4) 105 drone_searching
           nav_en_route 10).
  - reflexivity.
  - lra.
  - reflexivity.
Defined.

(** The growth test [search_radius < max_search_radius] lets the last
    increment pass the maximum: from 19.99 a 1.25 s tick reaches 21.24. *)
Example radius_overshoots_maximum :
  exists d' nav',
    update (G := flat_geodesy) (5 # 4) 105 drone_wide_spiral nav_en_route
      = Ok (d', nav') /\
    (exists r', search_radius d' = Some r' /\ r' == 2124 # 100) /\
    max_search_radius d' = 20.
Proof.
  do 2 eexists. split; [vm_compute; reflexivity|]. split; [|reflexivity].
  eexists. split; reflexivity.
Qed.

(** C3 as stated fails twice: a tick that begins a new segment restarts the
    radius at 5 (from 10 down to 5 + 1/30), and the fifth 1.25 s tick of a
    segment, 5 s after its start, takes the angle from 300 to 375 without
    reducing it. *)
Lemma spiral_restarts_and_angle_overruns :
  ~ spiral_bounded (G := flat_geodesy) (1 # 30) 200 drone_next_segment
      nav_en_route /\
  ~ spiral_bounded (G := flat_geodesy) (5 # 4) 105 drone_searching
      nav_en_route.
Proof.
  split; intro H.
  - edestruct (H 10) as (r' & Hr & Hle & _);
      [reflexivity | lra | reflexivity | vm_compute; reflexivity |].
    vm_compute in Hr. injection Hr as <-.
    vm_compute in Hle. apply Hle. reflexivity.
  - edestruct (H 10) as (r' & _ & _ & _ & _ & Hlt);
      [reflexivity | lra | reflexivity | vm_compute; reflexivity |].
    vm_compute in Hlt. discriminate Hlt.
Qed.

(** One second into a segment, with 29.99 s accumulated. *)
Lemma search_failsafe_witness :
  exists d' nav',
    update (G := flat_geodesy) (1 # 30) 101 drone_search_exhausted
      nav_en_route = Ok (d', nav') /\
    state d' = RETURN_HOME /\
    total_search_time d' = 0 /\
    waypoints nav' = [home_waypoint drone_search_exhausted] /\
    current_waypoint_idx nav' = 0%Z /\
    reached_destination nav' = false.
Proof.
  apply (search_failsafe (G := flat_geodesy) (1 # 30) 101
           drone_search_exhausted nav_en_route).
  - reflexivity.
  - intros _. discriminate.
  - vm_compute. discriminate.
  - reflexivity.
Defined.

(** C4 as stated fails twice: with 30 s exceeded on the tick that also
    completes the segment (6 s after its start) the drone goes back to
    [HOVERING] and the route is kept; and when the failsafe does fire, the
    segment timer [search_start_time] keeps its value 100. *)
Lemma failsafe_preempted_and_timer_kept :
  ~ failsafe_resets_all (G := flat_geodesy) (1 # 30) 106
      drone_search_exhausted nav_en_route /\
  ~ failsafe_resets_all (G := flat_geodesy) (1 # 30) 101
      drone_search_exhausted nav_en_route.
Proof.
  split; intro H.
  - destruct (H eq_refl eq_refl) as (d' & nav' & U & S & _).
    vm_compute in U. injection U as <- <-. discriminate S.
  - destruct (H eq_refl eq_refl) as (d' & nav' & U & _ & _ & _ & T).
    vm_compute in U. injection U as <- <-.
    vm_compute in T. discriminate T.
Qed.

End DroneFacts.

(* ================================================================== *)
(** ** Visual localisation *)

Module VisionFacts.

Import Vision Localisation Samples.

Section WithOpenCV.
Variables (Image KeyPoint Descriptor : Type).
Variable detectAndCompute : Image -> list KeyPoint * option (list Descriptor).
Variable knnMatch : list Descriptor -> list Descriptor -> list (list DMatch).

Implicit Types (vs : VisionSystem Image KeyPoint Descriptor) (camera : Image).

(** An index at or past the end of the reference list is a no-match. *)
Lemma match_waypoint_index_too_large vs camera
  (i : Z) :
  (len (waypoint_features vs) <= i)%Z ->
  match_waypoint detectAndCompute knnMatch vs camera i = Ok (false, 0).
Proof.
  intro H. unfold match_waypoint.
  apply Z.leb_le in H. now rewrite H.
Qed.

(** A reference without descriptors is a no-match. *)
Lemma match_waypoint_no_descriptors vs camera
  (i : Z) (f : Features Image KeyPoint Descriptor) :
  (0 <= i < len (waypoint_features vs))%Z ->
  nth_error (waypoint_features vs) (Z.to_nat i) = Some f ->
  des f = None ->
  match_waypoint detectAndCompute knnMatch vs camera i = Ok (false, 0).
Proof.
  intros R N D. unfold match_waypoint.
  destruct (len (waypoint_features vs) <=? i)%Z eqn:E; [reflexivity|].
  destruct (getitem_in_range _ _ R) as (f' & Gf & Nf).
  rewrite Gf. cbn [bind]. replace f' with f by congruence. now rewrite D.
Qed.

(** A negative index is not rejected: it counts from the end. *)
Lemma negative_index_counts_from_end vs camera
  (i : Z) :
  (- len (waypoint_features vs) <= i < 0)%Z ->
  match_waypoint detectAndCompute knnMatch vs camera i =
  match_waypoint detectAndCompute knnMatch vs camera (i + len (waypoint_features vs)).
Proof.
  intros [Lo Hi]. unfold match_waypoint.
  destruct (len (waypoint_features vs) <=? i)%Z eqn:E1;
    [apply Z.leb_le in E1; unfold len in *; lia|].
  destruct (len (waypoint_features vs) <=? i + len (waypoint_features vs))%Z
    eqn:E2; [apply Z.leb_le in E2; lia|].
  f_equal. unfold getitem, len in *.
  destruct (i <? 0)%Z eqn:E3; [|apply Z.ltb_ge in E3; lia].
  destruct (i + Z.of_nat (List.length (waypoint_features vs)) <? 0)%Z eqn:E4;
    [apply Z.ltb_lt in E4; lia|].
  now rewrite E4.
Qed.

(** The loop over well-formed 2-NN entries keeps exactly the best matches
    of the entries that pass the ratio test. *)
Lemma good_matches_accepted (matches : list (list DMatch)) :
  Forall (fun entry => List.length entry = 2%nat) matches ->
  exists good,
    good_matches matches = Ok good /\
    len good = accepted_count matches /\
    (forall m, In m good <->
               exists n, In [m; n] matches /\
                         distance m < (7 # 10) * distance n).
Proof.
  unfold accepted_count, len.
  induction 1 as [|entry rest P _ (good & IHg & IHc & IHin)].
  - exists []. repeat split; try reflexivity.
    + intros [].
    + intros (n & [] & _).
  - destruct entry as [|m [|n [|? ?]]]; try discriminate P.
    cbn [good_matches accepted filter]. rewrite IHg. cbn [bind].
    unfold ratio_test.
    destruct (Qltb (distance m) ((7 # 10) * distance n)) eqn:E.
    + exists (m :: good). split; [reflexivity|]. split.
      * cbn [List.length]. lia.
      * intro m'. split.
        -- intros [<- | I].
           ++ exists n. split; [now left | now apply Qltb_lt].
           ++ apply IHin in I as (n' & I & L). exists n'. split; [now right | exact L].
        -- intros (n' & [[= <- <-] | I] & L); [now left|].
           right. apply IHin. now exists n'.
    + exists good. split; [reflexivity|]. split; [exact IHc|].
      intro m'. split.
      * intro I. apply IHin in I as (n' & I & L). exists n'. split; [now right | exact L].
      * intros (n' & [[= <- <-] | I] & L).
        -- apply Qltb_lt in L. congruence.
        -- apply IHin. now exists n'.
Qed.

(** C7: when the match runs (index in range, descriptors on both sides, a
    reference with keypoints, 2-NN entries that are pairs), exactly the
    best matches whose distance is strictly below 0.7 times the second-best
    are accepted, the confidence is their count divided by 100, and success
    is returned if and only if the confidence is at least 0.25. *)
Theorem match_waypoint_ratio_confidence vs camera
  (i : Z) (f : Features Image KeyPoint Descriptor)
  (des_target des_camera : list Descriptor) :
  confidence_threshold vs = 1 # 4 ->
  (0 <= i < len (waypoint_features vs))%Z ->
  nth_error (waypoint_features vs) (Z.to_nat i) = Some f ->
  des f = Some des_target ->
  kp f <> [] ->
  snd (detectAndCompute camera) = Some des_camera ->
  Forall (fun entry => List.length entry = 2%nat)
    (knnMatch des_target des_camera) ->
  exists good success confidence,
    good_matches (knnMatch des_target des_camera) = Ok good /\
    (forall m, In m good <->
               exists n, In [m; n] (knnMatch des_target des_camera) /\
                         distance m < (7 # 10) * distance n) /\
    len good = accepted_count (knnMatch des_target des_camera) /\
    match_waypoint detectAndCompute knnMatch vs camera i = Ok (success, confidence) /\
    confidence = inject_Z (len good) / 100 /\
    (success = true <-> 1 # 4 <= confidence).
Proof.
  intros T R N D K C P.
  destruct (good_matches_accepted _ P) as (good & Gm & Gc & Gin).
  exists good. do 2 eexists.
  split; [exact Gm|]. split; [exact Gin|]. split; [exact Gc|].
  unfold match_waypoint.
  destruct (len (waypoint_features vs) <=? i)%Z eqn:E;
    [apply Z.leb_le in E; lia|].
  destruct (getitem_in_range _ _ R) as (f' & Gf & Nf).
  rewrite Gf. cbn [bind]. replace f' with f by congruence.
  rewrite D, C, Gm. cbn [bind].
  assert (L : (0 <? len (kp f))%Z = true).
  { apply Z.ltb_lt. unfold len. destruct (kp f); [contradiction|].
    cbn [List.length]. lia. }
  rewrite L, T. split; [reflexivity|]. split; [reflexivity|].
  apply Qle_bool_iff.
Qed.

End WithOpenCV.

(** Thirty reference descriptors, all matched unambiguously. *)
Lemma match_waypoint_ratio_confidence_witness :
  exists good success confidence,
    good_matches (knn reference reference) = Ok good /\
    (forall m, In m good <->
               exists n, In [m; n] (knn reference reference) /\
                         distance m < (7 # 10) * distance n) /\
    len good = accepted_count (knn reference reference) /\
    match_waypoint detect knn vision reference 0 = Ok (success, confidence) /\
    confidence = inject_Z (len good) / 100 /\
    (success = true <-> 1 # 4 <= confidence).
Proof.
  apply (match_waypoint_ratio_confidence (list Z) Z Z detect knn vision
           reference 0 {| kp := reference; des := Some reference;
                          img := reference |} reference reference).
  - reflexivity.
  - cbn. lia.
  - reflexivity.
  - reflexivity.
  - discriminate.
  - reflexivity.
  - repeat constructor.
Defined.

(** C5: index -1 is out of range, yet [match_waypoint] does not return the
    no-match result: without references it raises [IndexError], and with
    one reference it matches against that reference (here successfully,
    with confidence 30/100). *)
Theorem match_waypoint_negative_index_not_rejected :
  match_waypoint detect knn no_references reference (-1) = Raise IndexError /\
  match_waypoint detect knn vision reference (-1) = Ok (true, 30 # 100).
Proof.
  split; vm_compute; reflexivity.
Qed.

End VisionFacts.

(* ================================================================== *)
(** ** Geographic to screen coordinates *)

Module EnvironmentFacts.

Import Environment Samples.

(** C9: with a bounding box of zero longitude or latitude extent the
    conversion returns the map centre; otherwise it returns, without a
    division error, the linear interpolation of the point into the map's
    pixel size (latitude inverted), each coordinate truncated by [int]. *)
Theorem latlon_to_screen_total (min_lon min_lat max_lon max_lat : Q)
  (map_width map_height : Z) (lat lon : Q) :
  let env := {| bbox := (min_lon, min_lat, max_lon, max_lat);
                map_size := (map_width, map_height) |} in
  (max_lon - min_lon == 0 \/ max_lat - min_lat == 0 ->
   latlon_to_screen env lat lon = Ok (map_width / 2, map_height / 2)%Z) /\
  (~ max_lon - min_lon == 0 -> ~ max_lat - min_lat == 0 ->
   latlon_to_screen env lat lon =
     Ok (py_int ((lon - min_lon) / (max_lon - min_lon) * inject_Z map_width),
         py_int ((max_lat - lat) / (max_lat - min_lat)
                 * inject_Z map_height))).
Proof.
  cbv zeta. unfold latlon_to_screen. cbn [bbox map_size]. split.
  - intros [H | H]; apply Qeq_bool_iff in H; rewrite H;
      [reflexivity | now rewrite orb_true_r].
  - intros Hx Hy.
    destruct (Qeq_bool (max_lon - min_lon) 0) eqn:Ex;
      [apply Qeq_bool_iff in Ex; contradiction|].
    destruct (Qeq_bool (max_lat - min_lat) 0) eqn:Ey;
      [apply Qeq_bool_iff in Ey; contradiction|].
    cbn [orb]. rewrite !truediv_nonzero by assumption. reflexivity.
Qed.

(** A point bounding box, and the default one. *)
Lemma latlon_to_screen_total_witness :
  latlon_to_screen env_point (103 # 2) (-1 # 2) = Ok (750, 500)%Z /\
  latlon_to_screen env_default (205 # 4) (-3 # 4) = Ok (375, 750)%Z.
Proof.
  split.
  - apply (proj1 (latlon_to_screen_total (-1) 51 (-1) 51 1500 1000
                    (103 # 2) (-1 # 2))).
    left. reflexivity.
  - apply (proj2 (latlon_to_screen_total (-1) 51 0 52 1500 1000
                    (205 # 4) (-3 # 4))); discriminate.
Defined.

End EnvironmentFacts.

(* ================================================================== *)
(** ** The navigator over its lifetime *)

Module RouteFacts.

Import Navigation Routes Mission.

Lemma getitem_ok {A : Type} (l : list A) (i : Z) :
  (0 <= i < len l)%Z -> exists a, getitem l i = Ok a.
Proof.
  intro H. destruct (getitem_in_range l i H) as (a & E & _). now exists a.
Qed.

Lemma len_nil_iff {A : Type} (l : list A) : (len l =? 0)%Z = true <-> l = [].
Proof.
  unfold len. destruct l; cbn; split; intro H; try reflexivity;
    try discriminate.
Qed.

(** On a well-formed navigator neither method raises, and both keep it
    well formed. *)
Lemma update_well_formed {G : Geodesy} (lat lon : Q) (nav : NavigationSystem) :
  well_formed nav ->
  exists nav', update lat lon nav = Ok nav' /\ well_formed nav'.
Proof.
  intros [I W]. unfold update.
  destruct (reached_destination nav) eqn:R; cbn [orb].
  - eexists. split; [reflexivity|]. split; cbn; auto.
  - destruct (len (waypoints nav) =? 0)%Z eqn:E.
    + apply len_nil_iff in E. eexists. split; [reflexivity|].
      split; cbn; auto.
    + destruct W as [W | [W | W]]; [discriminate | |].
      * apply len_nil_iff in W. congruence.
      * destruct (getitem_ok (waypoints nav) (current_waypoint_idx nav))
          as (wp & Gw); [lia|].
        rewrite Gw. cbn [bind]. eexists. split; [reflexivity|].
        split; cbn; auto.
Qed.

Lemma advance_well_formed (nav : NavigationSystem) :
  well_formed nav ->
  exists nav', advance_waypoint nav = Ok nav' /\ well_formed nav'.
Proof.
  intros [I W]. unfold advance_waypoint.
  destruct (reached_destination nav) eqn:R; cbn [negb].
  - eexists. split; [reflexivity|]. split; cbn; auto.
  - cbn [set_index waypoints current_waypoint_idx].
    destruct (len (waypoints nav) <=? current_waypoint_idx nav + 1)%Z eqn:E.
    + eexists. split; [reflexivity|]. split; cbn; [lia | auto].
    + apply Z.leb_gt in E.
      destruct (getitem_ok (waypoints nav) (current_waypoint_idx nav + 1))
        as (wp & Gw); [lia|].
      rewrite Gw. cbn [bind]. eexists. split; [reflexivity|].
      split; cbn; [lia | auto].
Qed.

Lemma built_well_formed {G : Geodesy} (nav : NavigationSystem) :
  built nav -> well_formed nav.
Proof.
  induction 1 as [wps | lat lon nav nav' _ IH U | nav nav' _ IH U
                 | wps nav _ IH].
  - unfold well_formed, init. cbn.
    split; [lia|]. destruct (1 <? len wps)%Z eqn:E; [|auto].
    apply Z.ltb_lt in E. auto.
  - destruct (update_well_formed lat lon nav IH) as (n & U' & W).
    congruence.
  - destruct (advance_well_formed nav IH) as (n & U' & W). congruence.
  - unfold well_formed, set_new_route. cbn. split; [lia|].
    destruct wps; [auto|]. right. right. unfold len. cbn. lia.
Qed.

(** X1: on every navigator obtained from the constructor through
    [update], [advance_waypoint] and [set_new_route], in any order and with
    any routes, [update] and [advance_waypoint] return: the indexing
    [self.waypoints[self.current_waypoint_idx]] is never out of range. *)
Theorem built_navigator_never_raises {G : Geodesy} (nav : NavigationSystem)
  (lat lon : Q) :
  built nav ->
  (exists nav', update lat lon nav = Ok nav') /\
  (exists nav', advance_waypoint nav = Ok nav').
Proof.
  intro B. apply built_well_formed in B. split.
  - destruct (update_well_formed lat lon nav B) as (n & U & _). now exists n.
  - destruct (advance_well_formed nav B) as (n & U & _). now exists n.
Qed.

(** The navigator of the two-waypoint route, after the failsafe replaced
    the route. *)
Lemma built_navigator_never_raises_witness :
  (exists nav', update (G := flat_geodesy) 0 0 nav_home = Ok nav') /\
  (exists nav', advance_waypoint nav_home = Ok nav').
Proof.
  apply (built_navigator_never_raises (G := flat_geodesy) nav_home 0 0).
  apply built_set_new_route. apply built_init.
Defined.

(** Advancing in the middle of a route. *)
Lemma advance_within_route (nav : NavigationSystem) :
  active nav ->
  exists nav',
    advance_waypoint nav = Ok nav' /\
    reached_destination nav' = is_final_waypoint nav /\
    current_waypoint_idx nav' = (current_waypoint_idx nav + 1)%Z /\
    waypoints nav' = waypoints nav /\
    (is_final_waypoint nav = false -> active nav').
Proof.
  intros [R [Lo Hi]]. unfold advance_waypoint, is_final_waypoint, active.
  rewrite R. cbn [negb set_index waypoints current_waypoint_idx].
  destruct (len (waypoints nav) <=? current_waypoint_idx nav + 1)%Z eqn:E.
  - apply Z.leb_le in E.
    assert (F : (current_waypoint_idx nav =? len (waypoints nav) - 1)%Z = true)
      by (apply Z.eqb_eq; lia).
    rewrite F. eexists. split; [reflexivity|]. cbn.
    repeat split; discriminate.
  - apply Z.leb_gt in E.
    assert (F : (current_waypoint_idx nav =? len (waypoints nav) - 1)%Z = false)
      by (apply Z.eqb_neq; lia).
    rewrite F.
    destruct (getitem_ok (waypoints nav) (current_waypoint_idx nav + 1))
      as (wp & Gw); [lia|].
    rewrite Gw. cbn [bind]. eexists. split; [reflexivity|]. cbn.
    repeat split; auto; lia.
Qed.

(** X2: in the middle of a route, [advance_waypoint] marks the route as
    completed exactly when it advances from the final waypoint
    ([is_final_waypoint]); otherwise the navigator stays in the middle of
    the route, one waypoint further. *)
Theorem advance_completes_iff_final (nav : NavigationSystem) :
  active nav ->
  exists nav',
    advance_waypoint nav = Ok nav' /\
    reached_destination nav' = is_final_waypoint nav /\
    current_waypoint_idx nav' = (current_waypoint_idx nav + 1)%Z /\
    waypoints nav' = waypoints nav /\
    (is_final_waypoint nav = false -> active nav').
Proof. exact (advance_within_route nav). Qed.

(** The first leg of [route], whose target is also its final waypoint. *)
Lemma advance_completes_iff_final_witness :
  exists nav',
    advance_waypoint (Navigation.init route) = Ok nav' /\
    reached_destination nav' = is_final_waypoint (Navigation.init route) /\
    current_waypoint_idx nav' =
      (current_waypoint_idx (Navigation.init route) + 1)%Z /\
    waypoints nav' = waypoints (Navigation.init route) /\
    (is_final_waypoint (Navigation.init route) = false -> active nav').
Proof.
  apply (advance_completes_iff_final (Navigation.init route)).
  split; [reflexivity|]. cbn. lia.
Defined.

(** X3: [calculate_bearing] returns a bearing of at least 0 and below 360,
    whatever the trigonometric part yields. *)
Theorem bearing_is_normalised {G : Geodesy} (lat1 lon1 lat2 lon2 : Q) :
  0 <= calculate_bearing lat1 lon1 lat2 lon2 /\
  calculate_bearing lat1 lon1 lat2 lon2 < 360.
Proof. apply py_mod_range. reflexivity. Qed.

End RouteFacts.

(* ================================================================== *)
(** ** The main loop *)

Module LoopFacts.

Import Navigation Drone Vision Mission Routes Loop LoopInvariant DroneFacts.

Section WithCollaborators.
Context {G : Geodesy}.
Variables (Image KeyPoint Descriptor : Type).
Variable detectAndCompute : Image -> list KeyPoint * option (list Descriptor).
Variable knnMatch : list Descriptor -> list Descriptor -> list (list DMatch).

Implicit Types (s : Sim Image KeyPoint Descriptor) (f : Frame Image).

(** With pairs only, a non-negative index never makes the match raise. *)
Lemma match_waypoint_total
  (vs : VisionSystem Image KeyPoint Descriptor) (camera : Image) (i : Z) :
  (0 <= i)%Z ->
  pairs_only knnMatch ->
  exists m, match_waypoint detectAndCompute knnMatch vs camera i = Ok m.
Proof.
  intros I P. unfold match_waypoint.
  destruct (len (waypoint_features vs) <=? i)%Z eqn:E; [now eexists|].
  apply Z.leb_gt in E.
  destruct (RouteFacts.getitem_ok (waypoint_features vs) i) as (ft & Gf);
    [lia|].
  rewrite Gf. cbn [bind].
  destruct (des ft) as [dq|]; [|now eexists].
  destruct (snd (detectAndCompute camera)) as [dc|]; [|now eexists].
  destruct (VisionFacts.good_matches_accepted (knnMatch dq dc) (P dq dc))
    as (good & Gm & _).
  rewrite Gm. cbn [bind]. now eexists.
Qed.


(** X5: when the match reaches the ratio-test loop and some 2-NN entry is
    not a pair (the matcher found fewer than two neighbours for a
    descriptor), [match_waypoint] raises [ValueError]. *)
Theorem match_waypoint_unpack_error
  (vs : VisionSystem Image KeyPoint Descriptor) (camera : Image) (i : Z)
  (ft : Features Image KeyPoint Descriptor)
  (des_target des_camera : list Descriptor) :
  (0 <= i < len (waypoint_features vs))%Z ->
  nth_error (waypoint_features vs) (Z.to_nat i) = Some ft ->
  des ft = Some des_target ->
  snd (detectAndCompute camera) = Some des_camera ->
  Exists (fun entry => List.length entry <> 2%nat)
    (knnMatch des_target des_camera) ->
  match_waypoint detectAndCompute knnMatch vs camera i = Raise ValueError.
Proof.
  intros R N D C X. unfold match_waypoint.
  destruct (len (waypoint_features vs) <=? i)%Z eqn:E;
    [apply Z.leb_le in E; lia|].
  destruct (getitem_in_range _ _ R) as (f' & Gf & Nf).
  rewrite Gf. cbn [bind]. replace f' with ft by congruence.
  rewrite D, C.
  assert (B : good_matches (knnMatch des_target des_camera)
              = Raise ValueError).
  { induction (knnMatch des_target des_camera) as [|entry rest IH].
    - inversion X.
    - destruct entry as [|m [|n [|? ?]]]; try reflexivity.
      inversion X as [? ? Bad | ? ? Later]; subst.
      + now contradiction Bad.
      + cbn [good_matches]. now rewrite (IH Later). }
  now rewrite B.
Qed.

Lemma current_velocity_returns (cruise distance : Q) :
  exists speed, current_velocity cruise distance = Ok speed.
Proof.
  unfold current_velocity. destruct (Qltb distance braking_distance).
  - rewrite truediv_nonzero by (intro Z; discriminate Z). cbn [bind].
    now eexists.
  - now eexists.
Qed.

(** With distance known and the timers the state needs in place, the drone
    update returns. *)
Lemma drone_update_returns (dt now : Q) (d : Drone) (nav : NavigationSystem)
  (distance : Q) :
  state d <> HOVERING ->
  active nav ->
  distance_to_wp nav = Some distance ->
  (state d = MATCH_FOUND -> match_found_time d <> None) ->
  radius_available d ->
  exists r, update dt now d nav = Ok r.
Proof.
  intros NH A D MF RA. unfold update.
  destruct (state_eqb (state d) LANDED); [now eexists|].
  cut (exists r, state_logic dt now d nav = Ok r).
  { intros ([[fl d1] nav1] & L). rewrite L. cbn [bind].
    destruct fl; now eexists. }
  unfold state_logic.
  destruct (state d) eqn:St; try contradiction; try (now eexists).
  - (* NAVIGATING *)
    unfold update_navigating. destruct A as [R _]. rewrite R, D.
    cbn [operand bind].
    destruct (current_velocity_returns
                (velocity match bearing_to_wp nav with
                          | Some b => set_bearing b d
                          | None => d
                          end) distance) as (speed & V).
    rewrite V. cbn [bind].
    destruct (Qltb distance (waypoint_threshold nav)); cbn [bind];
      now eexists.
  - (* SEARCHING *)
    unfold update_searching, radius_available in *. fields.
    destruct (Qeq_bool (search_start_time d) 0) eqn:E; fields.
    + repeat (branch; fields); now eexists.
    + destruct (search_radius d) as [r|] eqn:Hr; [|now destruct (RA eq_refl)].
      fields. repeat (branch; fields); now eexists.
  - (* MATCH_FOUND *)
    unfold update_match_found.
    destruct (match_found_time d) as [t|]; [|now destruct (MF eq_refl)].
    cbn [operand bind].
    destruct (Qltb 1 (now - t)); [|cbn [bind]; now eexists].
    destruct (is_final_waypoint nav); [cbn [bind]; now eexists|].
    destruct (RouteFacts.advance_within_route nav A) as (nav' & Adv & _).
    rewrite Adv. cbn [bind]. now eexists.
Qed.

(** A drone update keeps the navigator in the middle of a route: nothing
    in it marks the route as completed. *)
Lemma drone_update_keeps_active (dt now : Q) (d d' : Drone)
  (nav nav' : NavigationSystem) :
  active nav ->
  update dt now d nav = Ok (d', nav') ->
  active nav'.
Proof.
  intros A. unfold_update.
  destruct (state d) eqn:St; cbn [state_eqb negb]; fields.
  all: repeat (branch; fields).
  all: try discriminate.
  all: intros H; inversion H; subst; fields; try exact A.
  all: try (split; [reflexivity | cbn; lia]).
  all: match goal with
       | F : is_final_waypoint ?nv = false,
         E : advance_waypoint ?nv = Ok ?n |- _ =>
           destruct (RouteFacts.advance_within_route nv A)
             as (n' & Adv & _ & _ & _ & A');
           replace n with n' by congruence; exact (A' F)
       end.
Qed.

Lemma drone_update_keeps_reference_index (dt now : Q) (d d' : Drone)
  (nav nav' : NavigationSystem) :
  active nav ->
  reference_index_ok d nav ->
  update dt now d nav = Ok (d', nav') ->
  reference_index_ok d' nav'.
Proof.
  intros A K. unfold reference_index_ok in *. unfold_update.
  destruct (state d) eqn:St; cbn [state_eqb negb]; fields.
  all: repeat (branch; fields).
  all: try discriminate.
  all: intros H; inversion H; subst; fields; rewrite ?St.
  all: try (destruct K as [K | [K | [K | K]]]; try discriminate).
  all: try tauto.
  all: try match goal with
       | E : advance_waypoint ?nv = Ok ?n |- _ =>
           destruct (RouteFacts.advance_within_route nv A)
             as (n' & Adv & _ & I' & _);
           replace n with n' by congruence;
           destruct A as [_ [Lo _]]; right; right; right; lia
       end.
Qed.

Lemma drone_update_keeps_match_time (dt now : Q) (d d' : Drone)
  (nav nav' : NavigationSystem) :
  (state d = MATCH_FOUND -> match_found_time d <> None) ->
  update dt now d nav = Ok (d', nav') ->
  state d' = MATCH_FOUND -> match_found_time d' <> None.
Proof.
  intros MF. unfold_update.
  destruct (state d) eqn:St; cbn [state_eqb negb]; fields.
  all: repeat (branch; fields).
  all: try discriminate.
  all: intros H; inversion H; subst; fields; rewrite ?St;
    try discriminate; auto.
  all: intros _; congruence.
Qed.

Lemma state_eqb_eq (a b : DroneState) : state_eqb a b = true <-> a = b.
Proof. destruct a, b; cbn; split; intro H; congruence. Qed.

Lemma state_eqb_neq (a b : DroneState) : state_eqb a b = false <-> a <> b.
Proof. destruct a, b; cbn; split; intro H; congruence. Qed.

(** What holds between passes is kept by [confirm_match] and by the switch
    to [SEARCHING], for a drone that hovers or searches. *)
Lemma vision_step_between_passes (d : Drone) (nav : NavigationSystem)
  (t : Q) :
  state d = HOVERING \/ state d = SEARCHING ->
  reference_index_ok d nav ->
  radius_available d ->
  (reference_index_ok (confirm_match t d) nav /\
   radius_available (confirm_match t d)) /\
  (reference_index_ok (begin_search d) nav /\
   radius_available (begin_search d)).
Proof.
  intros S K RA. unfold reference_index_ok, radius_available in *.
  assert (I : (1 <= current_waypoint_idx nav)%Z).
  { destruct S as [S | S]; rewrite S in K;
      destruct K as [K | [K | [K | K]]]; try discriminate; exact K. }
  fields. repeat split; auto; intro H; discriminate H.
Qed.

(** One pass keeps what holds between passes, and returns. *)
Lemma pass_between_passes f s :
  pairs_only knnMatch ->
  between_passes s ->
  exists s', pass detectAndCompute knnMatch f s = Ok s' /\ between_passes s'.
Proof.
  intros P (NH & NI & MA & A & K & MF & RA). unfold pass.
  assert (A0 := A). destruct A0 as [R [Lo Hi]].
  destruct (RouteFacts.getitem_ok (waypoints (nav_system s))
              (current_waypoint_idx (nav_system s))) as (wp & Gw); [lia|].
  rewrite (NavigationFacts.update_active _ _ _ _ R Gw). cbn [bind].
  set (nav1 := set_status _ _ (nav_system s)).
  assert (A1 : active nav1) by (subst nav1; split; cbn; auto).
  assert (K1 : reference_index_ok (drone s) nav1) by exact K.
  destruct (drone_update_returns (frame_dt f) (frame_now f) (drone s) nav1 _
              NH A1 eq_refl MF RA) as ([d1 nav2] & U).
  rewrite U. cbn [bind fst snd].
  pose proof (update_not_idle _ _ _ _ _ _ NI U) as NI1.
  pose proof (drone_update_keeps_active _ _ _ _ _ _ A1 U) as A2.
  pose proof (drone_update_keeps_reference_index _ _ _ _ _ _ A1 K1 U) as K2.
  pose proof (drone_update_keeps_match_time _ _ _ _ _ _ MF U) as MF2.
  pose proof (update_radius_available _ _ _ _ _ _ RA U) as RA2.
  rewrite MA. cbn [negb andb].
  assert (Attempt :
    state d1 = HOVERING \/ state d1 = SEARCHING ->
    exists success confidence,
      match_waypoint detectAndCompute knnMatch (vision_system s)
        (frame_view f) (get_current_waypoint_index nav2 - 1)
      = Ok (success, confidence)).
  { intro S1.
    assert (I : (1 <= current_waypoint_idx nav2)%Z).
    { unfold reference_index_ok in K2.
      destruct S1 as [S1 | S1]; rewrite S1 in K2;
        destruct K2 as [K2 | [K2 | [K2 | K2]]]; try discriminate; exact K2. }
    destruct (match_waypoint_total (vision_system s) (frame_view f)
                (get_current_waypoint_index nav2 - 1)) as ([su co] & M);
      [unfold get_current_waypoint_index; lia | exact P |].
    now exists su, co. }
  destruct (state_eqb (state d1) HOVERING) eqn:H1; cbn [andb].
  - apply state_eqb_eq in H1.
    destruct (Attempt (or_introl H1)) as (su & co & M). rewrite M.
    cbn [bind].
    destruct (vision_step_between_passes d1 nav2 (frame_confirm_now f)
                (or_introl H1) K2 RA2) as [[Kc Rc] [Kb Rb]].
    destruct su; cbn [bind fst snd].
    + eexists. split; [reflexivity|]. unfold between_passes.
      cbn [drone nav_system match_attempted]. fields.
      cbn [state_eqb negb]. repeat split; try discriminate; auto; apply A2.
    + rewrite ?(proj2 (state_eqb_eq _ _) H1). cbn [bind fst snd].
      eexists. split; [reflexivity|]. unfold between_passes.
      cbn [drone nav_system match_attempted]. fields.
      cbn [state_eqb negb]. repeat split; try discriminate; auto; apply A2.
  - apply state_eqb_neq in H1.
    destruct (state_eqb (state d1) SEARCHING) eqn:S1.
    + apply state_eqb_eq in S1.
      destruct (vision_step_between_passes d1 nav2 (frame_confirm_now f)
                  (or_intror S1) K2 RA2) as [[Kc Rc] _].
      destruct (Qltb SEARCH_MATCH_INTERVAL _).
      * destruct (Attempt (or_intror S1)) as (su & co & M). rewrite M.
        cbn [bind].
        destruct su; cbn [bind fst snd].
        -- eexists. split; [reflexivity|]. unfold between_passes.
           cbn [drone nav_system match_attempted]. fields.
           cbn [state_eqb negb]. repeat split; try discriminate; auto; apply A2.
        -- rewrite ?(proj2 (state_eqb_neq _ _) H1). cbn [bind fst snd].
           eexists. split; [reflexivity|]. unfold between_passes.
           cbn [drone nav_system match_attempted].
           rewrite ?(proj2 (state_eqb_neq _ _) H1). cbn [negb].
           repeat split; auto; apply A2.
      * cbn [bind fst snd]. eexists. split; [reflexivity|].
        unfold between_passes. cbn [drone nav_system match_attempted].
        rewrite ?(proj2 (state_eqb_neq _ _) H1). cbn [negb].
        repeat split; auto; apply A2.
    + cbn [bind fst snd]. eexists. split; [reflexivity|].
      unfold between_passes. cbn [drone nav_system match_attempted].
      rewrite ?(proj2 (state_eqb_neq _ _) H1). cbn [negb].
      repeat split; auto; apply A2.
Qed.

Lemma run_between_passes (frames : list (Frame Image)) :
  forall s,
    pairs_only knnMatch ->
    between_passes s ->
    exists s',
      run detectAndCompute knnMatch frames s = Ok s' /\ between_passes s'.
Proof.
  induction frames as [|f rest IH]; intros s P B.
  - exists s. split; [reflexivity | exact B].
  - destruct (pass_between_passes f s P B) as (s1 & U & B1).
    cbn [run]. rewrite U. cbn [bind]. exact (IH s1 P B1).
Qed.

Lemma start_between_passes (first second : Waypoint)
  (others : list Waypoint) (snapshots : list Image) :
  between_passes (start detectAndCompute first (second :: others) snapshots).
Proof.
  unfold between_passes, start. cbn [drone nav_system match_attempted].
  repeat split; try discriminate.
  - unfold Navigation.init, len. cbn [reached_destination List.length].
    destruct (1 <? Z.of_nat (S (S (List.length others))))%Z eqn:E;
      [reflexivity|]. apply Z.ltb_ge in E. lia.
  - unfold len. cbn [Navigation.init waypoints current_waypoint_idx
                     List.length]. lia.
  - right. right. right. cbn. lia.
Qed.


(** X7: along the main loop the route is never marked as completed and
    the route index stays inside the route; while the drone can still hover,
    search or confirm a match the index is at least 1, so the reference
    index [current_waypoint_idx - 1] handed to [match_waypoint] is never
    negative. *)
Theorem main_loop_keeps_route_active (first second : Waypoint)
  (others : list Waypoint) (snapshots : list Image)
  (frames : list (Frame Image)) (s' : Sim Image KeyPoint Descriptor) :
  pairs_only knnMatch ->
  run detectAndCompute knnMatch frames
    (start detectAndCompute first (second :: others) snapshots) = Ok s' ->
  reached_destination (nav_system s') = false /\
  (0 <= current_waypoint_idx (nav_system s')
   < len (waypoints (nav_system s')))%Z /\
  (state (drone s') = HOVERING \/ state (drone s') = SEARCHING \/
   state (drone s') = MATCH_FOUND \/ state (drone s') = NAVIGATING \/
   state (drone s') = TAKING_OFF ->
   (0 <= current_waypoint_idx (nav_system s') - 1)%Z).
Proof.
  intros P U.
  destruct (run_between_passes frames _ P
              (start_between_passes first second others snapshots))
    as (s1 & U1 & (_ & _ & _ & A & K & _)).
  replace s' with s1 by congruence.
  destruct A as [R I]. split; [exact R|]. split; [exact I|].
  unfold reference_index_ok in K.
  intros [S | [S | [S | [S | S]]]]; rewrite S in K;
    destruct K as [K | [K | [K | K]]]; try discriminate; lia.
Qed.

(** X8: the hover debounce.  A pass that starts with [match_attempted]
    unset and returns ends with the drone out of [HOVERING] and with
    [match_attempted] unset again: arriving at a waypoint is answered in the
    same pass by a match attempt that leads to [MATCH_FOUND] or
    [SEARCHING]. *)
Theorem pass_leaves_hovering f s s' :
  match_attempted s = false ->
  pass detectAndCompute knnMatch f s = Ok s' ->
  state (drone s') <> HOVERING /\ match_attempted s' = false.
Proof.
  intros MA. unfold pass.
  destruct (Navigation.update _ _ _) as [nav1|]; cbn [bind]; [|discriminate].
  destruct (update _ _ _ nav1) as [[d1 nav2]|]; cbn [bind fst snd];
    [|discriminate].
  rewrite MA. cbn [negb].
  destruct (state_eqb (state d1) HOVERING) eqn:H1; cbn [andb].
  - destruct (match_waypoint _ _ _ _ _) as [[su co]|]; cbn [bind];
      [|discriminate].
    destruct su; cbn [bind fst snd].
    + intros [= <-]. cbn [drone match_attempted]. fields.
      cbn [state_eqb negb]. split; [discriminate | reflexivity].
    + rewrite ?H1. intros [= <-]. cbn [drone match_attempted]. fields.
      cbn [state_eqb negb]. split; [discriminate | reflexivity].
  - pose proof (proj1 (state_eqb_neq _ _) H1) as N1.
    destruct (state_eqb (state d1) SEARCHING).
    + destruct (Qltb SEARCH_MATCH_INTERVAL _).
      * destruct (match_waypoint _ _ _ _ _) as [[su co]|]; cbn [bind];
          [|discriminate].
        destruct su; cbn [bind fst snd].
        -- intros [= <-]. cbn [drone match_attempted]. fields.
           cbn [state_eqb negb]. split; [discriminate | reflexivity].
        -- rewrite ?H1. intros [= <-]. cbn [drone match_attempted fst].
           split; [exact N1 | rewrite ?H1; reflexivity].
      * cbn [bind fst snd]. intros [= <-]. cbn [drone match_attempted].
        split; [exact N1 | rewrite ?H1; reflexivity].
    + cbn [bind fst snd]. intros [= <-]. cbn [drone match_attempted].
      split; [exact N1 | rewrite ?H1; reflexivity].
Qed.

End WithCollaborators.

End LoopFacts.

(* ================================================================== *)
(** ** More of the flight state machine *)

Module FlightFacts.

Import Navigation Drone Mission Status Routes FlightSamples DroneFacts.

(** X9: for a cruise velocity of at least 3, the speed the braking block
    computes for a distance that is not negative lies between 3 and the
    cruise velocity, is 3 at distance 0, and does not decrease with the
    distance. *)
Theorem braking_speed_monotone (cruise d1 d2 : Q) :
  3 <= cruise ->
  0 <= d1 -> d1 <= d2 ->
  exists s0 s1 s2,
    current_velocity cruise 0 = Ok s0 /\ s0 == 3 /\
    current_velocity cruise d1 = Ok s1 /\
    current_velocity cruise d2 = Ok s2 /\
    3 <= s1 /\ s1 <= s2 /\ s2 <= cruise.
Proof.
  intros C P L.
  destruct (current_velocity_policy cruise 0) as (s0 & V0 & Lo0 & _); [lra|].
  destruct (current_velocity_policy cruise d1 P) as (s1 & V1 & Lo1 & Hi1).
  destruct (current_velocity_policy cruise d2) as (s2 & V2 & Lo2 & Hi2);
    [lra|].
  exists s0, s1, s2. split; [exact V0|]. split.
  { rewrite Lo0 by lra. field. }
  split; [exact V1|]. split; [exact V2|].
  assert (D : forall d, d / 30 == d * (1 # 30)) by (intro; field).
  destruct (Qlt_le_dec d1 30) as [A | A];
    destruct (Qlt_le_dec d2 30) as [B | B].
  - specialize (Lo1 A). specialize (Lo2 B). rewrite D in Lo1, Lo2.
    repeat split; nra.
  - specialize (Lo1 A). rewrite (Hi2 B). rewrite D in Lo1.
    repeat split; nra.
  - lra.
  - rewrite (Hi1 A), (Hi2 B). repeat split; lra.
Qed.

(** Cruise velocity 15: 10 m out and 20 m out. *)
Lemma braking_speed_monotone_witness :
  exists s0 s1 s2,
    current_velocity 15 0 = Ok s0 /\ s0 == 3 /\
    current_velocity 15 10 = Ok s1 /\
    current_velocity 15 20 = Ok s2 /\
    3 <= s1 /\ s1 <= s2 /\ s2 <= 15.
Proof.
  apply (braking_speed_monotone 15 10 20); lra.
Defined.

Section WithGeodesy.
Context {G : Geodesy}.

(** Any quantity is covered by enough steps of a positive size. *)
Lemma enough_steps (a step : Q) :
  0 < step -> exists n : nat, a <= inject_Z (Z.of_nat (S n)) * step.
Proof.
  intro H.
  exists (Z.to_nat (Qceiling (a / step))).
  pose proof (Qle_ceiling (a / step)) as C.
  assert (E : a == a / step * step) by (field; lra).
  assert (L : inject_Z (Qceiling (a / step))
              <= inject_Z (Z.of_nat (S (Z.to_nat (Qceiling (a / step)))))).
  { rewrite <- Zle_Qle. lia. }
  assert (a / step * step <= inject_Z (Qceiling (a / step)) * step)
    by (apply Qmult_le_compat_r; lra).
  assert (inject_Z (Qceiling (a / step)) * step
          <= inject_Z (Z.of_nat (S (Z.to_nat (Qceiling (a / step))))) * step)
    by (apply Qmult_le_compat_r; lra).
  lra.
Qed.

Lemma inject_succ (n : nat) :
  inject_Z (Z.of_nat (S n)) == inject_Z (Z.of_nat n) + 1.
Proof. rewrite Nat2Z.inj_succ. unfold Z.succ. now rewrite inject_Z_plus. Qed.

(** One climbing tick. *)
Lemma taking_off_tick (dt now : Q) (d : Drone) (nav : NavigationSystem) :
  state d = TAKING_OFF ->
  0 <= cruise_altitude d ->
  exists d',
    update dt now d nav = Ok (d', nav) /\
    (lat d', lon d') = (lat d, lon d) /\
    cruise_altitude d' = cruise_altitude d /\
    ascent_speed d' = ascent_speed d /\
    (cruise_altitude d <= z d + ascent_speed d * dt ->
     state d' = NAVIGATING /\ z d' == cruise_altitude d) /\
    (z d + ascent_speed d * dt < cruise_altitude d ->
     state d' = TAKING_OFF /\ z d + ascent_speed d * dt <= z d').
Proof.
  intros S C. unfold_update. rewrite S. cbn [state_eqb bind]. fields.
  destruct (Qle_bool (cruise_altitude d) (z d + ascent_speed d * dt)) eqn:E.
  - apply Qle_bool_iff in E. eexists. split; [reflexivity|]. fields.
    repeat split; try lra. now apply py_max_0_eq.
  - eexists. split; [reflexivity|]. fields.
    assert (~ cruise_altitude d <= z d + ascent_speed d * dt).
    { intro L. apply Qle_bool_iff in L. congruence. }
    repeat split; try lra; try exact S.
    unfold py_max. destruct (Qltb 0 _) eqn:F; [lra|].
    apply Qltb_ge in F. lra.
Qed.

Lemma takeoff_within (n : nat) :
  forall (dt now : Q) (d : Drone) (nav : NavigationSystem),
    state d = TAKING_OFF ->
    0 <= cruise_altitude d ->
    0 < ascent_speed d * dt ->
    cruise_altitude d - z d
      <= inject_Z (Z.of_nat (S n)) * (ascent_speed d * dt) ->
    exists m d',
      (m <= S n)%nat /\
      updates m dt now d nav = Ok (d', nav) /\
      state d' = NAVIGATING /\
      z d' == cruise_altitude d /\
      (lat d', lon d') = (lat d, lon d).
Proof.
  induction n as [|n IH]; intros dt now d nav St C P B;
    destruct (taking_off_tick dt now d nav St C)
      as (d1 & U & Pos & Cr & As & Hi & Lo);
    destruct (Qlt_le_dec (z d + ascent_speed d * dt) (cruise_altitude d))
      as [Below | Reached].
  - exfalso. change (inject_Z (Z.of_nat 1)) with 1 in B. lra.
  - exists 1%nat, d1. cbn [updates]. rewrite U. cbn [bind fst snd].
    destruct (Hi Reached). auto.
  - destruct (Lo Below) as [S1 Z1].
    destruct (IH dt (now + dt) d1 nav S1) as (m & d' & Le & U' & S' & Z' & P');
      try (rewrite ?Cr, ?As; lra).
    { rewrite Cr, As. rewrite (inject_succ (S n)) in B. lra. }
    exists (S m), d'. cbn [updates]. rewrite U. cbn [bind fst snd].
    rewrite Cr in Z'. repeat split; auto; try lia; congruence.
  - exists 1%nat, d1. cbn [updates]. rewrite U. cbn [bind fst snd].
    destruct (Hi Reached). repeat split; auto; lia.
Qed.

(** X10: take-off ends.  A drone in [TAKING_OFF] with a positive climb per
    tick reaches [NAVIGATING] after finitely many updates, at exactly the
    cruise altitude and without having moved horizontally. *)
Theorem takeoff_reaches_cruise (dt now : Q) (d : Drone)
  (nav : NavigationSystem) :
  state d = TAKING_OFF ->
  0 <= cruise_altitude d ->
  0 < ascent_speed d * dt ->
  exists n d',
    updates n dt now d nav = Ok (d', nav) /\
    state d' = NAVIGATING /\
    z d' == cruise_altitude d /\
    (lat d', lon d') = (lat d, lon d).
Proof.
  intros S C P.
  destruct (enough_steps (cruise_altitude d - z d) _ P) as (n & B).
  destruct (takeoff_within n dt now d nav S C P B)
    as (m & d' & _ & U & R).
  now exists m, d'.
Qed.

End WithGeodesy.

(** The freshly constructed drone at 30 frames per second. *)
Lemma takeoff_reaches_cruise_witness :
  exists n d',
    updates (G := flat_geodesy) n (1 # 30) 0 drone0 nav_en_route
      = Ok (d', nav_en_route) /\
    state d' = NAVIGATING /\
    z d' == cruise_altitude drone0 /\
    (lat d', lon d') = (lat drone0, lon drone0).
Proof.
  apply (takeoff_reaches_cruise (G := flat_geodesy) (1 # 30) 0 drone0
           nav_en_route); reflexivity || (vm_compute; discriminate).
Defined.


Section Landing.
Context {G : Geodesy}.

(** One descending tick. *)
Lemma landing_tick (dt now : Q) (d : Drone) (nav : NavigationSystem) :
  state d = LANDING ->
  exists d',
    update dt now d nav = Ok (d', nav) /\
    (lat d', lon d') = (lat d, lon d) /\
    descent_speed d' = descent_speed d /\
    (z d - descent_speed d * dt <= 1 # 10 ->
     state d' = LANDED /\ z d' = 0 /\ velocity d' = 0) /\
    (1 # 10 < z d - descent_speed d * dt ->
     state d' = LANDING /\ z d' = z d - descent_speed d * dt).
Proof.
  intros St. unfold_update. rewrite St. cbn [state_eqb bind]. fields.
  destruct (Qle_bool (z d - descent_speed d * dt) (1 # 10)) eqn:E.
  - apply Qle_bool_iff in E. eexists. split; [reflexivity|]. fields.
    repeat split; try lra.
  - eexists. split; [reflexivity|]. fields.
    assert (~ z d - descent_speed d * dt <= 1 # 10).
    { intro L. apply Qle_bool_iff in L. congruence. }
    repeat split; try lra; try exact St.
    unfold py_max. destruct (Qltb 0 _) eqn:F; [reflexivity|].
    apply Qltb_ge in F. lra.
Qed.

Lemma landing_within (n : nat) :
  forall (dt now : Q) (d : Drone) (nav : NavigationSystem),
    state d = LANDING ->
    0 < descent_speed d * dt ->
    z d - (1 # 10) <= inject_Z (Z.of_nat (S n)) * (descent_speed d * dt) ->
    exists m d',
      updates m dt now d nav = Ok (d', nav) /\
      state d' = LANDED /\ z d' = 0 /\ velocity d' = 0 /\
      (lat d', lon d') = (lat d, lon d).
Proof.
  induction n as [|n IH]; intros dt now d nav St P B;
    destruct (landing_tick dt now d nav St) as (d1 & U & Pos & De & Lo & Hi);
    destruct (Qlt_le_dec (1 # 10) (z d - descent_speed d * dt))
      as [Above | Down].
  - exfalso. change (inject_Z (Z.of_nat 1)) with 1 in B. lra.
  - exists 1%nat, d1. cbn [updates]. rewrite U. cbn [bind fst snd].
    destruct (Lo Down) as (? & ? & ?). auto.
  - destruct (Hi Above) as [S1 Z1].
    destruct (IH dt (now + dt) d1 nav S1) as (m & d' & U' & S' & Z' & V' & P').
    { rewrite De. exact P. }
    { rewrite De, Z1. rewrite (inject_succ (S n)) in B. lra. }
    exists (S m), d'. cbn [updates]. rewrite U. cbn [bind fst snd].
    repeat split; auto; congruence.
  - exists 1%nat, d1. cbn [updates]. rewrite U. cbn [bind fst snd].
    destruct (Lo Down) as (? & ? & ?). auto.
Qed.

(** X11: landing ends.  A drone in [LANDING] with a positive descent per
    tick is [LANDED] after finitely many updates, at altitude 0 with
    velocity 0 and where it began to descend; from then on [update] changes
    nothing. *)
Theorem landing_reaches_ground (dt now : Q) (d : Drone)
  (nav : NavigationSystem) :
  state d = LANDING ->
  0 < descent_speed d * dt ->
  exists n d',
    updates n dt now d nav = Ok (d', nav) /\
    state d' = LANDED /\ z d' = 0 /\ velocity d' = 0 /\
    (lat d', lon d') = (lat d, lon d) /\
    forall dt' now' nav', update dt' now' d' nav' = Ok (d', nav').
Proof.
  intros St P.
  destruct (enough_steps (z d - (1 # 10)) _ P) as (n & B).
  destruct (landing_within n dt now d nav St P B)
    as (m & d' & U & S' & Z' & V' & P').
  exists m, d'. repeat split; auto.
  intros. now apply update_landed.
Qed.

(** The state logic leaves the altitude alone when it returns early. *)
Lemma returned_keeps_altitude (dt now : Q) (d d' : Drone)
  (nav nav' : NavigationSystem) :
  state_logic dt now d nav = Ok (Returned, d', nav') ->
  z d' = z d /\ velocity d' = velocity d.
Proof.
  unfold_update.
  destruct (state d) eqn:St; cbn [state_eqb negb]; fields.
  all: repeat (branch; fields).
  all: try discriminate.
  all: intros H; inversion H; subst; fields; auto.
Qed.

(** Entering [LANDED] happens on the ground, at rest. *)
Lemma state_logic_landed (dt now : Q) (d d' : Drone)
  (nav nav' : NavigationSystem) (fl : flow) :
  state d <> LANDED ->
  state_logic dt now d nav = Ok (fl, d', nav') ->
  state d' = LANDED ->
  z d' = 0 /\ velocity d' = 0.
Proof.
  intro N. unfold_update.
  destruct (state d) eqn:St; cbn [state_eqb negb]; fields;
    try contradiction.
  all: repeat (branch; fields).
  all: try discriminate.
  all: intros H; inversion H; subst; fields; auto; try discriminate.
  all: try congruence.
Qed.

Lemma update_envelope (dt now : Q) (d d' : Drone)
  (nav nav' : NavigationSystem) :
  envelope d -> update dt now d nav = Ok (d', nav') -> envelope d'.
Proof.
  intros (Hz & Hb & Hl). unfold update.
  destruct (state_eqb (state d) LANDED) eqn:E.
  { intros [= <- <-]. repeat split; auto; now apply Hl. }
  assert (N : state d <> LANDED).
  { intro St. rewrite St in E. discriminate. }
  destruct (state_logic dt now d nav) as [[[fl d1] nav1]|] eqn:L;
    cbn [bind]; [|discriminate].
  destruct fl; intros [= <- <-].
  - unfold envelope. fields.
    split; [apply py_max_0_nonneg|]. split; [apply py_max_0_nonneg|].
    intro St. destruct (state_logic_landed _ _ _ _ _ _ _ N L St) as [Z1 V1].
    rewrite Z1, V1. split; reflexivity.
  - destruct (returned_keeps_altitude _ _ _ _ _ _ L) as [Z1 V1].
    destruct (battery_after_state_logic _ _ _ _ _ _ _ L) as [B1 _].
    destruct (returned_is_segment_complete _ _ _ _ _ _ L) as (_ & _ & H1).
    unfold envelope. rewrite Z1, B1, H1.
    repeat split; auto; discriminate.
Qed.

(** X12: in every reachable state the altitude and the battery level are
    not negative, and a drone in [LANDED] is at altitude 0 with velocity
    0. *)
Theorem reachable_envelope (d : Drone) :
  reachable d ->
  0 <= z d /\ 0 <= battery d /\
  (state d = LANDED -> z d == 0 /\ velocity d == 0).
Proof.
  change (reachable d -> envelope d).
  induction 1 as [pos alt | dt now d d' nav nav' _ IH U
                 | now d _ IH | d _ IH | d _ IH _].
  - unfold envelope. cbn. repeat split; try lra; discriminate.
  - exact (update_envelope dt now d d' nav nav' IH U).
  - destruct IH as (Hz & Hb & _). unfold envelope. fields.
    repeat split; auto; discriminate.
  - destruct IH as (Hz & Hb & Hl). unfold initiate_landing.
    destruct (negb (state_eqb (state d) LANDING)).
    + unfold envelope. fields. repeat split; auto; discriminate.
    + repeat split; auto; now apply Hl.
  - destruct IH as (Hz & Hb & _). unfold envelope. fields.
    repeat split; auto; discriminate.
Qed.

End Landing.

(** A drone descending from 3 m at 30 frames per second. *)
Lemma landing_reaches_ground_witness :
  exists n d',
    updates (G := flat_geodesy) n (1 # 30) 0 drone_landing nav_en_route
      = Ok (d', nav_en_route) /\
    state d' = LANDED /\ z d' = 0 /\ velocity d' = 0 /\
    (lat d', lon d') = (lat drone_landing, lon drone_landing) /\
    forall dt' now' nav',
      update (G := flat_geodesy) dt' now' d' nav' = Ok (d', nav').
Proof.
  apply (landing_reaches_ground (G := flat_geodesy) (1 # 30) 0 drone_landing
           nav_en_route); reflexivity.
Defined.

(** The drone after its first climbing tick. *)
Lemma reachable_envelope_witness :
  exists d' nav',
    update (G := flat_geodesy) 1 0 drone0 nav_en_route = Ok (d', nav') /\
    0 <= z d' /\ 0 <= battery d' /\
    (state d' = LANDED -> z d' == 0 /\ velocity d' == 0).
Proof.
  do 2 eexists. split; [vm_compute; reflexivity|].
  apply (reachable_envelope (G := flat_geodesy)).
  eapply (reach_update (G := flat_geodesy) 1 0 drone0 _ nav_en_route _
           (reach_init (0, 0) 10)).
  vm_compute. reflexivity.
Defined.

Section Hovering.
Context {G : Geodesy}.

(** Arrival keeps the hover timer as it was. *)
Lemma navigating_keeps_hover_timer (dt now : Q) (d d' : Drone)
  (nav nav' : NavigationSystem) :
  state d = NAVIGATING ->
  update dt now d nav = Ok (d', nav') ->
  hover_start_time d' = hover_start_time d.
Proof.
  intro St. unfold_update. rewrite St. cbn [state_eqb]. fields.
  unfold current_velocity.
  repeat (branch; fields); try discriminate.
  all: intros H; inversion H; subst; fields; reflexivity.
Qed.

(** X13: the arrival at a waypoint switches to [HOVERING] without setting
    [hover_start_time]; for a drone that has not searched before (the timer
    is still [None]) every later [update] in that state raises [TypeError],
    until something else changes the state. *)
Theorem first_hover_update_raises (dt now : Q) (d d' : Drone)
  (nav nav' : NavigationSystem) :
  state d = NAVIGATING ->
  hover_start_time d = None ->
  update dt now d nav = Ok (d', nav') ->
  state d' = HOVERING ->
  forall dt2 now2 nav2, update dt2 now2 d' nav2 = Raise TypeError.
Proof.
  intros St H0 U S' dt2 now2 nav2.
  rewrite <- (navigating_keeps_hover_timer dt now d d' nav nav' St U) in H0.
  unfold_update. rewrite S', H0. reflexivity.
Qed.

(** X14: the tick that completes a search segment (more than 5 s after the
    segment began) leaves the drone in [HOVERING] with the hover timer set
    to the clock reading, the segment timer back at 0 and the accumulated
    search time kept (increased by this tick's [dt]); the next [update] then
    returns normally and holds the position. *)
Theorem segment_exit_then_hover (dt now : Q) (d : Drone)
  (nav : NavigationSystem) :
  state d = SEARCHING ->
  radius_available d ->
  5 < now - segment_start now d ->
  exists d1,
    update dt now d nav = Ok (d1, nav) /\
    state d1 = HOVERING /\
    hover_start_time d1 = Some now /\
    search_start_time d1 = 0 /\
    total_search_time d1 = total_search_time d + dt /\
    forall dt2 now2 nav2,
      exists d2,
        update dt2 now2 d1 nav2 = Ok (d2, nav2) /\
        state d2 = HOVERING /\
        (lat d2, lon d2) = (lat d1, lon d1) /\
        heading d2 = heading d1.
Proof.
  intros St A T. unfold radius_available, segment_start in *.
  apply Qltb_lt in T.
  unfold_update. rewrite St. cbn [state_eqb]. fields.
  destruct (Qeq_bool (search_start_time d) 0) eqn:E; fields.
  - rewrite T. eexists. split; [reflexivity|]. fields.
    repeat split. intros. eexists. split; [reflexivity|]. fields. auto.
  - destruct (search_radius d) as [r|] eqn:Hr; [|now destruct (A eq_refl)].
    fields. rewrite T. eexists. split; [reflexivity|]. fields.
    repeat split. intros. eexists. split; [reflexivity|]. fields. auto.
Qed.

(** X15: after [confirm_match] at clock reading [t], on a navigator in the
    middle of its route: an [update] no more than 1 s later keeps
    [MATCH_FOUND]; a later one initiates the landing when the confirmed
    waypoint is the final one, and otherwise advances the navigator by one
    waypoint and resumes [NAVIGATING].  The search timers are at 0 in each
    case. *)
Theorem match_found_dwell (dt now t : Q) (d : Drone)
  (nav : NavigationSystem) :
  active nav ->
  exists d1 nav1,
    update dt now (confirm_match t d) nav = Ok (d1, nav1) /\
    search_start_time d1 = 0 /\ total_search_time d1 = 0 /\
    (now - t <= 1 -> state d1 = MATCH_FOUND /\ nav1 = nav) /\
    (1 < now - t -> is_final_waypoint nav = true ->
     state d1 = LANDING /\ nav1 = nav) /\
    (1 < now - t -> is_final_waypoint nav = false ->
     state d1 = NAVIGATING /\ active nav1 /\
     current_waypoint_idx nav1 = (current_waypoint_idx nav + 1)%Z /\
     waypoints nav1 = waypoints nav).
Proof.
  intro A.
  destruct (RouteFacts.advance_within_route nav A)
    as (nav' & Adv & R' & I' & W' & A').
  unfold_update. unfold confirm_match. fields. cbn [state_eqb negb].
  destruct (Qltb 1 (now - t)) eqn:E.
  - apply Qltb_lt in E.
    destruct (is_final_waypoint nav) eqn:F; cbn [bind].
    + do 2 eexists. split; [reflexivity|]. fields.
      repeat split; try lra; try discriminate.
    + rewrite Adv. cbn [bind]. do 2 eexists. split; [reflexivity|]. fields.
      repeat split; try lra; try discriminate; auto; apply A'; reflexivity.
  - apply Qltb_ge in E. cbn [bind]. do 2 eexists. split; [reflexivity|].
    fields. repeat split; try lra.
Qed.

(** X16: the battery status can only get worse: over a tick with
    [dt >= 0] of a drone with a drain rate and a battery level that are not
    negative, the status goes from OK towards CRITICAL or stays, and the
    reported level does not grow. *)
Theorem battery_status_worsens (dt now : Q) (d d' : Drone)
  (nav nav' : NavigationSystem) :
  0 <= dt -> 0 <= battery_drain_rate d -> 0 <= battery d ->
  update dt now d nav = Ok (d', nav') ->
  (severity (snd (get_battery_status d))
   <= severity (snd (get_battery_status d')))%nat /\
  fst (get_battery_status d') <= fst (get_battery_status d).
Proof.
  intros Hdt Hr Hb U.
  destruct (battery_monotone dt now d d' nav nav' Hdt Hr Hb U) as [_ M].
  unfold get_battery_status.
  destruct (Qltb 50 (battery d)) eqn:A; destruct (Qltb 20 (battery d)) eqn:B;
    destruct (Qltb 50 (battery d')) eqn:A';
    destruct (Qltb 20 (battery d')) eqn:B';
    cbn [fst snd severity]; split; try lia; try exact M.
  all: repeat match goal with
         | H : Qltb _ _ = true |- _ => apply Qltb_lt in H
         | H : Qltb _ _ = false |- _ => apply Qltb_ge in H
         end; lra.
Qed.

End Hovering.

(** Arriving 3 m from the target on the first leg. *)
Lemma first_hover_update_raises_witness :
  exists d' nav',
    update (G := flat_geodesy) (1 # 30) 10 drone_navigating nav_arriving
      = Ok (d', nav') /\
    forall dt2 now2 nav2,
      update (G := flat_geodesy) dt2 now2 d' nav2 = Raise TypeError.
Proof.
  do 2 eexists. split; [vm_compute; reflexivity|].
  eapply (first_hover_update_raises (G := flat_geodesy) (1 # 30) 10
           drone_navigating _ nav_arriving _);
    reflexivity || (vm_compute; reflexivity).
Defined.

(** Six seconds into the segment that began at clock reading 100. *)
Lemma segment_exit_then_hover_witness :
  exists d1,
    update (G := flat_geodesy) (1 # 30) 106 drone_searching nav_en_route
      = Ok (d1, nav_en_route) /\
    state d1 = HOVERING /\
    hover_start_time d1 = Some 106 /\
    search_start_time d1 = 0 /\
    total_search_time d1 = total_search_time drone_searching + (1 # 30) /\
    forall dt2 now2 nav2,
      exists d2,
        update (G := flat_geodesy) dt2 now2 d1 nav2 = Ok (d2, nav2) /\
        state d2 = HOVERING /\
        (lat d2, lon d2) = (lat d1, lon d1) /\
        heading d2 = heading d1.
Proof.
  apply (segment_exit_then_hover (G := flat_geodesy) (1 # 30) 106
           drone_searching nav_en_route).
  - reflexivity.
  - intros _. discriminate.
  - reflexivity.
Defined.

(** The first target of a three-waypoint route, confirmed at clock reading
    50 and updated two seconds later. *)
Lemma match_found_dwell_witness :
  exists d1 nav1,
    update (G := flat_geodesy) (1 # 30) 52 (confirm_match 50 drone_searching)
      nav_first_leg = Ok (d1, nav1) /\
    search_start_time d1 = 0 /\ total_search_time d1 = 0 /\
    (52 - 50 <= 1 -> state d1 = MATCH_FOUND /\ nav1 = nav_first_leg) /\
    (1 < 52 - 50 -> is_final_waypoint nav_first_leg = true ->
     state d1 = LANDING /\ nav1 = nav_first_leg) /\
    (1 < 52 - 50 -> is_final_waypoint nav_first_leg = false ->
     state d1 = NAVIGATING /\ active nav1 /\
     current_waypoint_idx nav1 =
       (current_waypoint_idx nav_first_leg + 1)%Z /\
     waypoints nav1 = waypoints nav_first_leg).
Proof.
  apply (match_found_dwell (G := flat_geodesy) (1 # 30) 52 50
           drone_searching nav_first_leg).
  split; [reflexivity|]. cbn. lia.
Defined.

(** One tick of the searching drone. *)
Lemma battery_status_worsens_witness :
  exists d' nav',
    update (G := flat_geodesy) (5 # 4) 105 drone_searching nav_en_route
      = Ok (d', nav') /\
    (severity (snd (get_battery_status drone_searching))
     <= severity (snd (get_battery_status d')))%nat /\
    fst (get_battery_status d') <= fst (get_battery_status drone_searching).
Proof.
  do 2 eexists. split; [vm_compute; reflexivity|].
  eapply (battery_status_worsens (G := flat_geodesy) (5 # 4) 105
           drone_searching _ nav_en_route _);
    try (vm_compute; discriminate).
  vm_compute. reflexivity.
Defined.

Section Ticks.
Context {G : Geodesy}.

(** X17: the battery over one tick.  With [dt], drain rate and level not
    negative, the level after any [update] that returns is not negative and
    not above the level before; and unless the tick completes a search
    segment (or the drone has landed), it is exactly the level minus
    [battery_drain_rate * dt], floored at 0. *)
Theorem battery_over_a_tick (dt now : Q) (d d' : Drone)
  (nav nav' : NavigationSystem) :
  0 <= dt -> 0 <= battery_drain_rate d -> 0 <= battery d ->
  update dt now d nav = Ok (d', nav') ->
  0 <= battery d' /\ battery d' <= battery d /\
  (state d <> LANDED ->
   (state d = SEARCHING -> now - segment_start now d <= 5) ->
   battery d' = py_max 0 (battery d - battery_drain_rate d * dt)).
Proof.
  intros Hdt Hr Hb U.
  destruct (battery_monotone dt now d d' nav nav' Hdt Hr Hb U) as [A B].
  split; [exact A|]. split; [exact B|].
  intros NL NS. exact (battery_drained dt now d d' nav nav' NL NS U).
Qed.

(** X18: a tick in [NAVIGATING].  With the route marked as reached nothing
    moves; with no distance computed yet (the navigator was never updated)
    the tick raises [TypeError]; otherwise it returns, and the drone switches
    to [HOVERING] exactly when the distance to the waypoint is below the
    navigator's threshold, staying in [NAVIGATING] if not. *)
Theorem navigating_tick (dt now : Q) (d : Drone) (nav : NavigationSystem) :
  state d = NAVIGATING ->
  (reached_destination nav = true ->
   exists d', update dt now d nav = Ok (d', nav) /\
              state d' = NAVIGATING /\
              (lat d', lon d') = (lat d, lon d) /\ heading d' = heading d) /\
  (reached_destination nav = false -> distance_to_wp nav = None ->
   update dt now d nav = Raise TypeError) /\
  (reached_destination nav = false ->
   forall distance, distance_to_wp nav = Some distance ->
   exists d', update dt now d nav = Ok (d', nav) /\
              (distance < waypoint_threshold nav -> state d' = HOVERING) /\
              (waypoint_threshold nav <= distance -> state d' = NAVIGATING)).
Proof.
  intro St. split; [|split].
  - intro R. unfold_update. rewrite St, R. cbn [state_eqb bind].
    eexists. split; [reflexivity|]. fields. auto.
  - intros R D. unfold_update. rewrite St, R, D. reflexivity.
  - intros R distance D. unfold_update. rewrite St, R, D.
    cbn [state_eqb operand bind].
    destruct (LoopFacts.current_velocity_returns
                (velocity match bearing_to_wp nav with
                          | Some b => set_bearing b d
                          | None => d
                          end) distance) as (speed & V).
    rewrite V. cbn [bind].
    destruct (Qltb distance (waypoint_threshold nav)) eqn:E; cbn [bind];
      eexists; (split; [reflexivity|]); fields.
    + split; [reflexivity|]. apply Qltb_lt in E. intro. lra.
    + apply Qltb_ge in E. split; [intro; lra|]. intros _.
      destruct (Qltb 0 _), (bearing_to_wp nav); fields; exact St.
Qed.

(** X19: after the failsafe has installed the home-only route, the main
    loop's two updates keep the drone in [RETURN_HOME] with the route never
    marked as reached, for any number of passes: the landing is never
    initiated. *)
Theorem return_home_never_ends (n : nat) (dt now : Q) (d : Drone)
  (nav : NavigationSystem) (home : Waypoint) :
  state d = RETURN_HOME ->
  waypoints nav = [home] ->
  current_waypoint_idx nav = 0%Z ->
  reached_destination nav = false ->
  exists d' nav',
    ticks n dt now d nav = Ok (d', nav') /\
    state d' = RETURN_HOME /\
    reached_destination nav' = false.
Proof. exact (home_route_never_lands n dt now d nav home). Qed.

End Ticks.

(** One tick of the searching drone. *)
Lemma battery_over_a_tick_witness :
  exists d' nav',
    update (G := flat_geodesy) (5 # 4) 105 drone_searching nav_en_route
      = Ok (d', nav') /\
    0 <= battery d' /\ battery d' <= battery drone_searching /\
    (state drone_searching <> LANDED ->
     (state drone_searching = SEARCHING ->
      105 - segment_start 105 drone_searching <= 5) ->
     battery d' = py_max 0 (battery drone_searching
                            - battery_drain_rate drone_searching * (5 # 4))).
Proof.
  do 2 eexists. split; [vm_compute; reflexivity|].
  eapply (battery_over_a_tick (G := flat_geodesy) (5 # 4) 105
            drone_searching _ nav_en_route _);
    try (vm_compute; discriminate).
  vm_compute. reflexivity.
Defined.

(** The first leg, 100 m out and 3 m out. *)
Lemma navigating_tick_witness :
  (exists d', update (G := flat_geodesy) 1 10 drone_navigating nav_en_route
              = Ok (d', nav_en_route) /\
              (100 < waypoint_threshold nav_en_route -> state d' = HOVERING) /\
              (waypoint_threshold nav_en_route <= 100 ->
               state d' = NAVIGATING)) /\
  update (G := flat_geodesy) 1 10 drone_navigating (Navigation.init route)
    = Raise TypeError.
Proof.
  destruct (navigating_tick (G := flat_geodesy) 1 10 drone_navigating
              nav_en_route eq_refl) as (_ & _ & Arr).
  destruct (navigating_tick (G := flat_geodesy) 1 10 drone_navigating
              (Navigation.init route) eq_refl) as (_ & Err & _).
  split.
  - exact (Arr eq_refl 100 eq_refl).
  - exact (Err eq_refl eq_refl).
Defined.

(** Sixty passes over home with the home-only route. *)
Lemma return_home_never_ends_witness :
  exists d' nav',
    ticks (G := flat_geodesy) 60 (1 # 30) 0 drone_over_home nav_home
      = Ok (d', nav') /\
    state d' = RETURN_HOME /\
    reached_destination nav' = false.
Proof.
  apply (return_home_never_ends (G := flat_geodesy) 60 (1 # 30) 0
           drone_over_home nav_home (home_waypoint drone0)); reflexivity.
Defined.

End FlightFacts.

(* ================================================================== *)
(** ** Maps, tiles and the route extent *)

Module MapFacts.

Import Environment MapView GeoUtils App Samples TileSamples.


(** [int] never moves a value that is not negative past an integer bound
    above it. *)
Lemma py_int_between (x : Q) (k : Z) :
  0 <= x -> x <= inject_Z k -> (0 <= py_int x <= k)%Z.
Proof.
  intros Lo Hi. destruct (py_int_truncates x) as (_ & P & _).
  destruct (P Lo) as [A B]. change 0 with (inject_Z 0) in A.
  rewrite <- Zle_Qle in A. split; [exact A|].
  rewrite Zle_Qle. lra.
Qed.



(** Inside the bounding box means inside the map. *)
Lemma latlon_inside_bounds (min_lon min_lat max_lon max_lat : Q)
  (map_width map_height : Z) (lat lon : Q) :
  let env := {| bbox := (min_lon, min_lat, max_lon, max_lat);
                map_size := (map_width, map_height) |} in
  (0 <= map_width)%Z -> (0 <= map_height)%Z ->
  min_lon < max_lon -> min_lat < max_lat ->
  min_lon <= lon <= max_lon ->
  min_lat <= lat <= max_lat ->
  exists x y,
    latlon_to_screen env lat lon = Ok (x, y) /\
    (0 <= x <= map_width)%Z /\ (0 <= y <= map_height)%Z.
Proof.
  intros env W H Rx Ry [Lx Hx] [Ly Hy]. subst env.
  unfold latlon_to_screen. cbn [bbox map_size].
  destruct (Qeq_bool (max_lon - min_lon) 0) eqn:Ex;
    [apply Qeq_bool_iff in Ex; lra|].
  destruct (Qeq_bool (max_lat - min_lat) 0) eqn:Ey;
    [apply Qeq_bool_iff in Ey; lra|].
  cbn [orb]. rewrite !truediv_nonzero by lra. cbn [bind].
  assert (Wq : 0 <= inject_Z map_width)
    by (change 0 with (inject_Z 0); now rewrite <- Zle_Qle).
  assert (Hq : 0 <= inject_Z map_height)
    by (change 0 with (inject_Z 0); now rewrite <- Zle_Qle).
  assert (Fx : 0 <= (lon - min_lon) / (max_lon - min_lon) <= 1).
  { split; [apply Qle_shift_div_l | apply Qle_shift_div_r]; lra. }
  assert (Fy : 0 <= (max_lat - lat) / (max_lat - min_lat) <= 1).
  { split; [apply Qle_shift_div_l | apply Qle_shift_div_r]; lra. }
  do 2 eexists. split; [reflexivity|].
  split; apply py_int_between; nra.
Qed.

(** X21: a point inside a bounding box of positive extent is converted to a
    pixel inside the map: both coordinates lie between 0 and the map's
    width and height. *)
Theorem latlon_inside_maps_inside (min_lon min_lat max_lon max_lat : Q)
  (map_width map_height : Z) (lat lon : Q) :
  let env := {| bbox := (min_lon, min_lat, max_lon, max_lat);
                map_size := (map_width, map_height) |} in
  (0 <= map_width)%Z -> (0 <= map_height)%Z ->
  min_lon < max_lon -> min_lat < max_lat ->
  min_lon <= lon <= max_lon ->
  min_lat <= lat <= max_lat ->
  exists x y,
    latlon_to_screen env lat lon = Ok (x, y) /\
    (0 <= x <= map_width)%Z /\ (0 <= y <= map_height)%Z.
Proof. exact (latlon_inside_bounds _ _ _ _ _ _ _ _). Qed.

(** The centre of the default bounding box. *)
Lemma latlon_inside_maps_inside_witness :
  exists x y,
    latlon_to_screen env_default (103 # 2) (-1 # 2) = Ok (x, y) /\
    (0 <= x <= 1500)%Z /\ (0 <= y <= 1000)%Z.
Proof.
  apply (latlon_inside_maps_inside (-1) 51 0 52 1500 1000 (103 # 2) (-1 # 2));
    try reflexivity; try (intro E; discriminate E);
    split; intro E; discriminate E.
Defined.


(** X23: the zoom arithmetic of the camera view is defined for every
    altitude: the scale factor is at least 1 (and at most 10 from the ground
    up), so neither division raises and the cropped area is never larger
    than the camera panel; below 60 m, for an altitude that is not negative,
    the vignette alpha lies between 0 and 150. *)
Theorem camera_view_arithmetic (altitude : Q) (cam_width cam_height : Z) :
  (0 <= cam_width)%Z -> (0 <= cam_height)%Z ->
  exists scale crop_width crop_height alpha,
    scale_factor altitude = Ok scale /\
    1 <= scale /\ (0 <= altitude -> scale <= 10) /\
    crop_size altitude (cam_width, cam_height)
      = Ok (crop_width, crop_height) /\
    0 <= crop_width <= inject_Z cam_width /\
    0 <= crop_height <= inject_Z cam_height /\
    vignette_alpha altitude = Ok alpha /\
    (0 <= altitude ->
     forall a, alpha = Some a -> (0 <= a <= 150)%Z) /\
    (60 <= altitude -> alpha = None).
Proof.
  intros W H.
  rewrite Zle_Qle in W, H. change (inject_Z 0) with 0 in *.
  assert (S : exists scale, scale_factor altitude = Ok scale /\
                            1 <= scale /\ (0 <= altitude -> scale <= 10)).
  { unfold scale_factor. destruct (Qle_bool 100 altitude) eqn:E.
    - exists 1. repeat split; lra.
    - rewrite truediv_nonzero by (intro Z; discriminate Z). cbn [bind].
      assert (altitude < 100).
      { apply Qnot_le_lt. intro L. apply Qle_bool_iff in L. congruence. }
      eexists. split; [reflexivity|].
      assert (D : altitude / 100 == altitude * (1 # 100)) by field.
      rewrite D. split; [lra | intro; lra]. }
  destruct S as (scale & Sf & S1 & S10).
  assert (V : exists alpha, vignette_alpha altitude = Ok alpha /\
              (0 <= altitude -> forall a, alpha = Some a -> (0 <= a <= 150)%Z)
              /\ (60 <= altitude -> alpha = None)).
  { unfold vignette_alpha. destruct (Qltb altitude 60) eqn:E.
    - apply Qltb_lt in E.
      rewrite truediv_nonzero by (intro Z; discriminate Z). cbn [bind].
      eexists. split; [reflexivity|]. split; [|intro; lra].
      intros A a [= <-].
      assert (D : altitude / 60 == altitude * (1 # 60)) by field.
      apply py_int_between; rewrite D; [lra|].
      change (inject_Z 150) with 150. lra.
    - exists None. split; [reflexivity|].
      split; [intros _ a Ha; discriminate Ha | reflexivity]. }
  destruct V as (alpha & Va & V1 & V2).
  exists scale, (inject_Z cam_width / scale), (inject_Z cam_height / scale),
    alpha.
  split; [exact Sf|]. split; [exact S1|]. split; [exact S10|].
  split.
  { unfold crop_size. rewrite Sf. cbn [bind].
    rewrite !truediv_nonzero by lra. reflexivity. }
  assert (Crop : forall c, 0 <= c -> 0 <= c / scale <= c).
  { intros c C. split.
    - apply Qle_shift_div_l; lra.
    - apply Qle_shift_div_r; [lra|]. nra. }
  split; [apply Crop; exact W|]. split; [apply Crop; exact H|].
  split; [exact Va|]. split; [exact V1 | exact V2].
Qed.

(** A 500 x 500 camera panel during take-off, 5 m up. *)
Lemma camera_view_arithmetic_witness :
  exists scale crop_width crop_height alpha,
    scale_factor 5 = Ok scale /\
    1 <= scale /\ (0 <= 5 -> scale <= 10) /\
    crop_size 5 (500, 500)%Z = Ok (crop_width, crop_height) /\
    0 <= crop_width <= inject_Z 500 /\
    0 <= crop_height <= inject_Z 500 /\
    vignette_alpha 5 = Ok alpha /\
    (0 <= 5 -> forall a, alpha = Some a -> (0 <= a <= 150)%Z) /\
    (60 <= 5 -> alpha = None).
Proof.
  apply (camera_view_arithmetic 5 500 500); lia.
Defined.

(** X24: a tile is recovered from its parent and its quadrant: each
    coordinate is twice the parent's plus the quadrant bit, the quadrant
    bits are 0 or 1, and the parent is one zoom level up. *)
Theorem parent_tile_recovers_child (x y zoom : Z) :
  let '(parent_x, parent_y, parent_zoom, (quadrant_x, quadrant_y)) :=
    get_parent_tile x y zoom in
  x = (2 * parent_x + quadrant_x)%Z /\
  y = (2 * parent_y + quadrant_y)%Z /\
  zoom = (parent_zoom + 1)%Z /\
  (quadrant_x = 0 \/ quadrant_x = 1)%Z /\
  (quadrant_y = 0 \/ quadrant_y = 1)%Z.
Proof.
  unfold get_parent_tile.
  pose proof (Z.div_mod x 2). pose proof (Z.div_mod y 2).
  pose proof (Z.mod_pos_bound x 2). pose proof (Z.mod_pos_bound y 2).
  repeat split; lia.
Qed.


Section Tiles.
Context {M : Mercator}.

Lemma two_to_the_positive (zoom : Z) : 0 < 2 ^ zoom.
Proof. apply Qpower_0_lt. reflexivity. Qed.

Lemma two_to_the_succ (zoom : Z) : 2 ^ zoom == 2 * 2 ^ (zoom - 1).
Proof.
  replace zoom with (1 + (zoom - 1))%Z at 1 by lia.
  rewrite Qpower_plus by (intro E; discriminate E). reflexivity.
Qed.

(** On values that are not negative [int] is the floor. *)
Lemma py_int_floor (x : Q) : 0 <= x -> py_int x = Qfloor x.
Proof.
  intro P. destruct x as [n d]. unfold py_int, Qfloor. cbn [Qnum Qden].
  apply Z.quot_div_nonneg; [|lia].
  unfold Qle in P. cbn in P. lia.
Qed.

(** Halving the floor of a doubled value gives the floor of the value. *)
Lemma floor_of_double (a : Q) : (Qfloor (2 * a) / 2)%Z = Qfloor a.
Proof.
  pose proof (Qfloor_le a) as L1. pose proof (Qlt_floor a) as U1.
  pose proof (Qfloor_le (2 * a)) as L2. pose proof (Qlt_floor (2 * a)) as U2.
  rewrite inject_Z_plus in U1, U2. change (inject_Z 1) with 1 in *.
  set (k := Qfloor a) in *. set (m := Qfloor (2 * a)) in *.
  assert (B : inject_Z m < inject_Z (2 * k + 2)).
  { rewrite inject_Z_plus, inject_Z_mult. change (inject_Z 2) with 2. lra. }
  assert (A' : inject_Z (2 * k) < inject_Z (m + 1)).
  { rewrite inject_Z_plus, inject_Z_mult.
    change (inject_Z 1) with 1. change (inject_Z 2) with 2. lra. }
  rewrite <- Zlt_Qlt in A', B.
  symmetry. apply Z.div_unique with (r := (m - 2 * k)%Z); lia.
Qed.


(** X26: the parent of the tile of a point is the tile of that point one
    zoom level up, for a longitude of at least -180 and a latitude whose
    Mercator ordinate is at most 1. *)
Theorem parent_tile_is_coarser_tile (lat_deg lon_deg : Q) (zoom : Z) :
  - (180) <= lon_deg ->
  mercator_y lat_deg <= 1 ->
  let '(xtile, ytile) := deg2num lat_deg lon_deg zoom in
  let '(parent_x, parent_y, parent_zoom, _) :=
    get_parent_tile xtile ytile zoom in
  (parent_x, parent_y) = deg2num lat_deg lon_deg parent_zoom.
Proof.
  intros Lon Lat. unfold deg2num, get_parent_tile.
  pose proof (two_to_the_positive zoom) as P.
  pose proof (two_to_the_positive (zoom - 1)) as P1.
  pose proof (two_to_the_succ zoom) as E.
  assert (Half : forall q, 0 <= q ->
            (py_int (q * 2 ^ zoom) / 2)%Z = py_int (q * 2 ^ (zoom - 1))).
  { intros q Q.
    rewrite !py_int_floor by nra.
    assert (D : q * 2 ^ zoom == 2 * (q * 2 ^ (zoom - 1))) by (rewrite E; ring).
    rewrite (Qfloor_comp _ _ D). apply floor_of_double. }
  f_equal; apply Half.
  - apply Qle_shift_div_l; lra.
  - apply Qle_shift_div_l; lra.
Qed.

End Tiles.



(** A point at 45 N, 10 E at zoom level 6. *)
Lemma parent_tile_is_coarser_tile_witness :
  let '(xtile, ytile) := deg2num (M := linear_mercator) 45 10 6 in
  let '(parent_x, parent_y, parent_zoom, _) :=
    get_parent_tile xtile ytile 6 in
  (parent_x, parent_y) = deg2num (M := linear_mercator) 45 10 parent_zoom.
Proof.
  apply (parent_tile_is_coarser_tile (M := linear_mercator) 45 10 6);
    intro E; discriminate E.
Defined.

Section RouteExtent.

Import Navigation.

Lemma fold_min_spec (rest : list Q) :
  forall first,
    fold_left py_min rest first <= first /\
    (forall v, In v rest -> fold_left py_min rest first <= v).
Proof.
  induction rest as [|x rest IH]; intro first; cbn [fold_left].
  - split; [lra | intros v []].
  - destruct (IH (py_min first x)) as [A B].
    pose proof (py_min_le_r first x) as R.
    assert (L : py_min first x <= first).
    { unfold py_min. destruct (Qltb x first) eqn:E;
        [apply Qltb_lt in E|]; lra. }
    split; [lra|]. intros v [<- | I]; [lra | now apply B].
Qed.

Lemma fold_max_spec (rest : list Q) :
  forall first,
    first <= fold_left py_max rest first /\
    (forall v, In v rest -> v <= fold_left py_max rest first).
Proof.
  induction rest as [|x rest IH]; intro first; cbn [fold_left].
  - split; [lra | intros v []].
  - destruct (IH (py_max first x)) as [A B].
    assert (L : first <= py_max first x /\ x <= py_max first x).
    { unfold py_max. destruct (Qltb first x) eqn:E;
        [apply Qltb_lt in E | apply Qltb_ge in E]; lra. }
    split; [lra|]. intros v [<- | I]; [lra | now apply B].
Qed.

Lemma min_of_spec (values : list Q) :
  values <> [] ->
  exists m, min_of values = Ok m /\ forall v, In v values -> m <= v.
Proof.
  destruct values as [|first rest]; [contradiction|]. intros _.
  destruct (fold_min_spec rest first) as [A B].
  eexists. split; [reflexivity|]. intros v [<- | I]; auto.
Qed.

Lemma max_of_spec (values : list Q) :
  values <> [] ->
  exists m, max_of values = Ok m /\ forall v, In v values -> v <= m.
Proof.
  destruct values as [|first rest]; [contradiction|]. intros _.
  destruct (fold_max_spec rest first) as [A B].
  eexists. split; [reflexivity|]. intros v [<- | I]; auto.
Qed.

Lemma accepted_route_not_empty (waypoints : list Waypoint) :
  rejected waypoints = false -> waypoints <> [].
Proof. intros R ->. discriminate R. Qed.

(** The extent of an accepted route. *)
Lemma route_bbox_spec (waypoints : list Waypoint) :
  rejected waypoints = false ->
  exists min_lon min_lat max_lon max_lat,
    route_bbox waypoints = Ok (min_lon, min_lat, max_lon, max_lat) /\
    (2 # 1000) <= max_lon - min_lon /\
    (2 # 1000) <= max_lat - min_lat /\
    forall wp, In wp waypoints ->
               inside (min_lon, min_lat, max_lon, max_lat) wp.
Proof.
  intro R. apply accepted_route_not_empty in R.
  assert (Nlat : map wp_lat waypoints <> [])
    by (destruct waypoints; [contradiction | discriminate]).
  assert (Nlon : map wp_lon waypoints <> [])
    by (destruct waypoints; [contradiction | discriminate]).
  destruct (min_of_spec _ Nlat) as (lo_lat & E1 & B1).
  destruct (max_of_spec _ Nlat) as (hi_lat & E2 & B2).
  destruct (min_of_spec _ Nlon) as (lo_lon & E3 & B3).
  destruct (max_of_spec _ Nlon) as (hi_lon & E4 & B4).
  unfold route_bbox. rewrite E1, E2, E3, E4. cbn [bind].
  do 4 eexists. split; [reflexivity|].
  assert (In1 : forall wp, In wp waypoints ->
            lo_lat <= wp_lat wp <= hi_lat /\ lo_lon <= wp_lon wp <= hi_lon).
  { intros wp I. repeat split;
      [apply B1 | apply B2 | apply B3 | apply B4]; now apply in_map. }
  unfold buffer, inside.
  destruct waypoints as [|wp0 rest]; [contradiction|].
  destruct (In1 wp0 (or_introl eq_refl)) as [[A1 A2] [A3 A4]].
  split; [lra|]. split; [lra|].
  intros wp I. destruct (In1 wp I) as [[C1 C2] [C3 C4]].
  repeat split; lra.
Qed.

(** X27: for a route the server accepts (at least two waypoints) the map
    extent is computed without error, every waypoint lies strictly inside
    it (so it has positive extent in both directions), and the map height
    is computed without a division by zero and is not negative. *)
Theorem accepted_route_has_extent (waypoints : list Waypoint) :
  rejected waypoints = false ->
  exists bbox height,
    route_bbox waypoints = Ok bbox /\
    (forall wp, In wp waypoints -> inside bbox wp) /\
    map_height bbox = Ok height /\ (0 <= height)%Z.
Proof.
  intro R.
  destruct (route_bbox_spec waypoints R)
    as (min_lon & min_lat & max_lon & max_lat & E & Wx & Wy & I).
  exists (min_lon, min_lat, max_lon, max_lat).
  unfold map_height. rewrite truediv_nonzero by lra. cbn [bind].
  eexists. split; [exact E|]. split; [exact I|]. split; [reflexivity|].
  destruct (py_int_truncates
              (inject_Z width * (max_lat - min_lat) / (max_lon - min_lon)))
    as (_ & P & _).
  assert (Q0 : 0 <= inject_Z width * (max_lat - min_lat)
                    / (max_lon - min_lon)).
  { apply Qle_shift_div_l; [lra|].
    change (inject_Z width) with 1500. lra. }
  destruct (P Q0) as [A _]. change 0 with (inject_Z 0) in A.
  now rewrite <- Zle_Qle in A.
Qed.

(** X28: on the map generated for an accepted route, whatever its pixel
    size, every waypoint of the route is converted to a pixel inside the
    map. *)
Theorem route_waypoints_on_map (waypoints : list Waypoint)
  (map_width map_height : Z) (wp : Waypoint) :
  rejected waypoints = false ->
  (0 <= map_width)%Z -> (0 <= map_height)%Z ->
  In wp waypoints ->
  exists bbox x y,
    route_bbox waypoints = Ok bbox /\
    latlon_to_screen {| bbox := bbox; map_size := (map_width, map_height) |}
      (wp_lat wp) (wp_lon wp) = Ok (x, y) /\
    (0 <= x <= map_width)%Z /\ (0 <= y <= map_height)%Z.
Proof.
  intros R W H I.
  destruct (route_bbox_spec waypoints R)
    as (min_lon & min_lat & max_lon & max_lat & E & Wx & Wy & In1).
  destruct (In1 wp I) as (A1 & A2 & A3 & A4).
  destruct (latlon_inside_bounds min_lon min_lat max_lon max_lat
              map_width map_height (wp_lat wp) (wp_lon wp))
    as (x & y & L & Bx & By); try lra; try assumption.
  exists (min_lon, min_lat, max_lon, max_lat), x, y. auto.
Qed.

End RouteExtent.



(** The route near Greenwich. *)
Lemma accepted_route_has_extent_witness :
  exists bbox height,
    route_bbox greenwich = Ok bbox /\
    (forall wp, In wp greenwich -> inside bbox wp) /\
    map_height bbox = Ok height /\ (0 <= height)%Z.
Proof.
  apply (accepted_route_has_extent greenwich). reflexivity.
Defined.

(** The second waypoint of the route near Greenwich on a 1500 x 1500 map. *)
Lemma route_waypoints_on_map_witness :
  exists bbox x y,
    route_bbox greenwich = Ok bbox /\
    latlon_to_screen {| bbox := bbox; map_size := (1500, 1500)%Z |}
      (5151 # 100) 0 = Ok (x, y) /\
    (0 <= x <= 1500)%Z /\ (0 <= y <= 1500)%Z.
Proof.
  apply (route_waypoints_on_map greenwich 1500 1500
           {| Navigation.wp_name := "B"; Navigation.wp_lat := 5151 # 100;
              Navigation.wp_lon := 0 |}).
  - reflexivity.
  - lia.
  - lia.
  - right. left. reflexivity.
Defined.


End MapFacts.

(* ================================================================== *)
(** ** Sample runs *)

Module RunFacts.

Import Navigation Drone Vision Mission Routes Loop LoopInvariant Samples
  TileSamples Localisation.

Lemma knn_pairs_only : pairs_only knn.
Proof.
  intros query train. unfold knn.
  induction query; constructor; auto.
Qed.

(** X30: a successful match needs at least 25 accepted pairs.  Whenever
    [match_waypoint] (threshold 0.25) returns, the confidence is not
    negative; and when it returns success, the index selects a reference
    with descriptors, the camera image has descriptors, and at least 25
    entries of the 2-NN result pass the ratio test. *)
Theorem success_needs_25_matches {Image KeyPoint Descriptor : Type}
  (detectAndCompute : Image -> list KeyPoint * option (list Descriptor))
  (knnMatch : list Descriptor -> list Descriptor -> list (list DMatch))
  (vs : VisionSystem Image KeyPoint Descriptor) (camera : Image) (i : Z)
  (success : bool) (confidence : Q) :
  confidence_threshold vs = 1 # 4 ->
  match_waypoint detectAndCompute knnMatch vs camera i
    = Ok (success, confidence) ->
  0 <= confidence /\
  (success = true ->
   exists ft des_target des_camera,
     getitem (waypoint_features vs) i = Ok ft /\
     des ft = Some des_target /\
     snd (detectAndCompute camera) = Some des_camera /\
     (25 <= accepted_count (knnMatch des_target des_camera))%Z /\
     (accepted_count (knnMatch des_target des_camera)
      <= len (knnMatch des_target des_camera))%Z).
Proof.
  intros T. unfold match_waypoint.
  assert (No : forall s c, Ok (false, 0) = Ok (s, c) ->
            0 <= c /\ (s = true -> exists (ft : Features Image KeyPoint Descriptor)
                                        (des_target des_camera : list Descriptor),
              getitem (waypoint_features vs) i = Ok ft /\
              des ft = Some des_target /\
              snd (detectAndCompute camera) = Some des_camera /\
              (25 <= accepted_count (knnMatch des_target des_camera))%Z /\
              (accepted_count (knnMatch des_target des_camera)
               <= len (knnMatch des_target des_camera))%Z)).
  { intros s c [= <- <-]. split; [lra | discriminate]. }
  destruct (len (waypoint_features vs) <=? i)%Z; [apply No|].
  destruct (getitem (waypoint_features vs) i) as [ft|] eqn:Gf; cbn [bind];
    [|discriminate].
  destruct (des ft) as [dq|] eqn:D; [|apply No].
  destruct (snd (detectAndCompute camera)) as [dc|] eqn:C; [|apply No].
  destruct (good_matches (knnMatch dq dc)) as [good|] eqn:Gm; cbn [bind];
    [|discriminate].
  assert (Count : len good = accepted_count (knnMatch dq dc) /\
                  (accepted_count (knnMatch dq dc) <= len (knnMatch dq dc))%Z).
  { clear - Gm. unfold accepted_count, len.
    revert good Gm.
    induction (knnMatch dq dc) as [|entry rest IH]; intros good Gm.
    - injection Gm as <-. cbn. lia.
    - destruct entry as [|m [|n [|? ?]]]; try discriminate Gm.
      cbn [good_matches] in Gm.
      destruct (good_matches rest) as [g|]; cbn [bind] in Gm;
        [|discriminate].
      destruct (IH g eq_refl) as [A B].
      injection Gm as <-. cbn [filter accepted]. unfold ratio_test.
      destruct (Qltb (distance m) ((7 # 10) * distance n));
        cbn [List.length]; lia. }
  destruct Count as [Cn Le].
  assert (N0 : 0 <= inject_Z (len good)).
  { change 0 with (inject_Z 0). rewrite <- Zle_Qle. unfold len. lia. }
  intros [= <- <-]. rewrite T.
  destruct (0 <? len (kp ft))%Z.
  - split.
    + apply Qle_shift_div_l; lra.
    + intro S. apply Qle_bool_iff in S.
      exists ft, dq, dc. repeat split; auto.
      rewrite <- Cn.
      assert (L : inject_Z 25 <= inject_Z (len good)).
      { change (inject_Z 25) with 25.
        assert (Dv : inject_Z (len good) / 100
                     == inject_Z (len good) * (1 # 100)) by field.
        rewrite Dv in S. lra. }
      now rewrite <- Zle_Qle in L.
  - split; [lra|]. intro S. apply Qle_bool_iff in S. exfalso.
    revert S. apply Qlt_not_le. reflexivity.
Qed.

(** The sample reference against itself: 30 pairs, all accepted. *)
Lemma success_needs_25_matches_witness :
  0 <= (30 # 100) /\
  (true = true ->
   exists ft des_target des_camera,
     getitem (waypoint_features vision) 0 = Ok ft /\
     des ft = Some des_target /\
     snd (detect reference) = Some des_camera /\
     (25 <= accepted_count (knn des_target des_camera))%Z /\
     (accepted_count (knn des_target des_camera)
      <= len (knn des_target des_camera))%Z).
Proof.
  apply (success_needs_25_matches detect knn vision reference 0 true
           (30 # 100)); reflexivity.
Defined.


(** A matcher that finds one neighbour only. *)
Lemma match_waypoint_unpack_error_witness :
  match_waypoint detect knn_single vision reference 0 = Raise ValueError.
Proof.
  apply (LoopFacts.match_waypoint_unpack_error (list Z) Z Z detect knn_single
           vision reference 0
           {| kp := reference; des := Some reference; img := reference |}
           reference reference).
  - cbn. lia.
  - reflexivity.
  - reflexivity.
  - reflexivity.
  - apply Exists_cons_hd. discriminate.
Defined.


Lemma main_loop_keeps_route_active_witness :
  exists s',
    run (G := flat_geodesy) detect knn mission_frames sim_north = Ok s' /\
    reached_destination (nav_system s') = false /\
    (0 <= current_waypoint_idx (nav_system s')
     < len (waypoints (nav_system s')))%Z /\
    (state (drone s') = HOVERING \/ state (drone s') = SEARCHING \/
     state (drone s') = MATCH_FOUND \/ state (drone s') = NAVIGATING \/
     state (drone s') = TAKING_OFF ->
     (0 <= current_waypoint_idx (nav_system s') - 1)%Z).
Proof.
  eexists. split; [vm_compute; reflexivity|].
  eapply (LoopFacts.main_loop_keeps_route_active (G := flat_geodesy)
            (list Z) Z Z detect knn Mission.start north_target []
            [reference] mission_frames).
  - exact knn_pairs_only.
  - vm_compute. reflexivity.
Defined.

(** The pass in which the drone arrives at the target and matches. *)
Lemma pass_leaves_hovering_witness :
  exists s2,
    pass (G := flat_geodesy) detect knn (frame 6) sim_arriving = Ok s2 /\
    state (drone s2) = MATCH_FOUND /\
    state (drone s2) <> HOVERING /\ match_attempted s2 = false.
Proof.
  eexists. split; [vm_compute; reflexivity|]. split; [reflexivity|].
  apply (LoopFacts.pass_leaves_hovering (G := flat_geodesy) (list Z) Z Z
           detect knn (frame 6) sim_arriving).
  - reflexivity.
  - vm_compute. reflexivity.
Defined.

(** The whole sample mission: take-off, the leg to the target, one match,
    the landing. *)
Example sample_mission_lands :
  exists s',
    run (G := flat_geodesy) detect knn mission_frames sim_north = Ok s' /\
    state (drone s') = LANDED /\
    z (drone s') = 0 /\
    last_match_confidence s' = 30 # 100.
Proof.
  eexists. split; [vm_compute; reflexivity|]. repeat split.
Qed.

End RunFacts.
